(** * Request authentication and anomaly classification: a shallow embedding

    The development follows the backend sources:
    - [utils/crypto.js]          key thumbprint and DPoP proof verification,
    - [utils/fingerprint.js]     fingerprint hash and weighted similarity,
    - [middleware/security.js]   [compareFingerprints],
    - [middleware/auth.js]       [authenticateToken] and the jti replay cache,
    - [middleware/antiScraping.js] the behavioural request classifier.

    Conventions.  JavaScript strings are modelled as [string] (sequences of
    8-bit characters), so every statement about character codes and case
    conversion is about ASCII text.  JavaScript numbers that the code uses as
    integers (timestamps, counters, scores, major versions) are [Z]; the
    ratios and averages the code computes with [/] are exact rationals [Q]
    instead of IEEE doubles.  Library calls (SHA-256, base64url, JSON.parse,
    the jose signature check) are fields of the class [Runtime]; so is what
    the engine computes where a number leaves the safe integers and the
    doubles are no longer the integers (the neighbours of a path's trailing
    number above 2^53 - 1). *)

From Stdlib Require Import ZArith QArith Qabs Qminmax String Ascii List Lia Lqa
  DecimalString HexadecimalString DecimalPos Permutation.
From stdpp Require Import gmap strings list.

Local Open Scope Z_scope.
Local Set Warnings "-register-all".

(** ** JavaScript strings *)

Module Js.

Definition code (c : ascii) : Z := Z.of_nat (nat_of_ascii c).

Definition isDigit (c : ascii) : bool := (48 <=? code c) && (code c <=? 57).

Definition isLower (c : ascii) : bool := (97 <=? code c) && (code c <=? 122).

Definition isUpper (c : ascii) : bool := (65 <=? code c) && (code c <=? 90).

Definition upperChar (c : ascii) : ascii :=
  if isLower c then ascii_of_nat (nat_of_ascii c - 32) else c.

Definition lowerChar (c : ascii) : ascii :=
  if isUpper c then ascii_of_nat (nat_of_ascii c + 32) else c.

(** [s.toUpperCase()] and [s.toLowerCase()] *)
Fixpoint toUpperCase (s : string) : string :=
  match s with
  | EmptyString => EmptyString
  | String c r => String (upperChar c) (toUpperCase r)
  end.

Fixpoint toLowerCase (s : string) : string :=
  match s with
  | EmptyString => EmptyString
  | String c r => String (lowerChar c) (toLowerCase r)
  end.

(** [s.startsWith(p)] *)
Definition startsWith (s p : string) : bool := String.prefix p s.

(** [s.includes(p)] *)
Fixpoint includes (s p : string) : bool :=
  String.prefix p s ||
  match s with
  | EmptyString => false
  | String _ r => includes r p
  end.

(** Truthiness of a string value and of a possibly undefined one. *)
Definition truthy (s : string) : bool := negb (String.eqb s EmptyString).

Definition truthyOpt (o : option string) : bool :=
  match o with Some s => truthy s | None => false end.

(** [o || ''] *)
Definition orEmpty (o : option string) : string :=
  match o with Some s => s | None => EmptyString end.

Fixpoint allDigits (s : string) : bool :=
  match s with
  | EmptyString => true
  | String c r => isDigit c && allDigits r
  end.

(** The longest prefix of decimal digits, as [\d+] or [\d*] captures it. *)
Fixpoint takeDigits (s : string) : string :=
  match s with
  | EmptyString => EmptyString
  | String c r => if isDigit c then String c (takeDigits r) else EmptyString
  end.

Fixpoint digitsValue (acc : Z) (s : string) : Z :=
  match s with
  | EmptyString => acc
  | String c r => digitsValue (10 * acc + (code c - 48)) r
  end.

(** [Number.MAX_SAFE_INTEGER]: up to here, and down to its opposite, an
    integer is a double of its own, and [parseInt], [+ 1], [- 1] and the
    conversion to a string are the exact operations on integers. *)
Definition MAX_SAFE_INTEGER : Z := 2 ^ 53 - 1.

(** [parseInt(ds)] on a non-empty string of decimal digits: the number the
    digits write.  The engine returns the nearest double, which is that
    number as long as it is at most [MAX_SAFE_INTEGER]. *)
Definition parseDigits (ds : string) : Z := digitsValue 0 ds.

(** [String(n)] for an integer [n] that is a double below 1e21 in absolute
    value: its decimal digits, after a minus sign when it is negative. *)
Definition numberToString (n : Z) : string :=
  DecimalString.NilEmpty.string_of_int (Z.to_int n).

(** [n.toString(16)] for a non-negative integer. *)
Definition toHex (n : Z) : string :=
  HexadecimalString.NilZero.string_of_uint (N.to_hex_uint (Z.to_N n)).

(** [s.split(sep)] for a one-character separator. *)
Fixpoint split (sep : ascii) (s : string) : list string :=
  match s with
  | EmptyString => [EmptyString]
  | String c r =>
      if Ascii.eqb c sep then EmptyString :: split sep r
      else match split sep r with
           | [] => [String c EmptyString]
           | w :: ws => String c w :: ws
           end
  end.

(** [parts.join(sep)] *)
Fixpoint join (sep : string) (parts : list string) : string :=
  match parts with
  | [] => EmptyString
  | [p] => p
  | p :: ps => p +:+ sep +:+ join sep ps
  end.

(** [a < b] on the rationals. *)
Definition ltQ (a b : Q) : bool := negb (Qle_bool b a).

(** 32-bit conversions of the bit operators. *)
Definition toUint32 (z : Z) : Z := z mod 2 ^ 32.

Definition toInt32 (z : Z) : Z :=
  let u := z mod 2 ^ 32 in if u <? 2 ^ 31 then u else u - 2 ^ 32.

(** [a ^ b] and [a << k] *)
Definition bitXor (a b : Z) : Z := toInt32 (Z.lxor (toInt32 a) (toInt32 b)).

Definition shiftLeft (a k : Z) : Z := toInt32 (Z.shiftl (toInt32 a) (k mod 32)).

End Js.

(** ** JSON values and [JSON.stringify] *)

Module Json.

(** Values produced by [JSON.parse]; numbers are the integer-valued ones. *)
Inductive jval : Type :=
| JNull
| JBool (b : bool)
| JNum (n : Z)
| JStr (s : string)
| JArr (items : list jval)
| JObj (props : list (string * jval)).

(** Own property of an object with the given key. *)
Fixpoint assoc {A} (k : string) (kvs : list (string * A)) : option A :=
  match kvs with
  | [] => None
  | (k', v) :: r => if String.eqb k k' then Some v else assoc k r
  end.

(** [v.k] or [v[k]] for a data key [k]: [None] when the access throws
    (on [null]), [Some None] for [undefined]. *)
Definition getProp (v : jval) (k : string) : option (option jval) :=
  match v with
  | JNull => None
  | JObj kvs => Some (assoc k kvs)
  | _ => Some None
  end.

(** JavaScript truthiness; [None] is [undefined]. *)
Definition truthy (o : option jval) : bool :=
  match o with
  | None | Some JNull => false
  | Some (JBool b) => b
  | Some (JNum n) => negb (n =? 0)
  | Some (JStr s) => Js.truthy s
  | Some (JArr _) | Some (JObj _) => true
  end.

(** [a === b] on values of two parse results: primitives compare by
    value, arrays and objects are distinct references. *)
Definition strictEq (a b : option jval) : bool :=
  match a, b with
  | None, None => true
  | Some JNull, Some JNull => true
  | Some (JBool x), Some (JBool y) => Bool.eqb x y
  | Some (JNum x), Some (JNum y) => x =? y
  | Some (JStr x), Some (JStr y) => String.eqb x y
  | _, _ => false
  end.

(** The double-quote character. *)
Definition dquote : ascii := ascii_of_nat 34.

Definition hexDigit (n : Z) : ascii :=
  if n <? 10 then ascii_of_nat (Z.to_nat (48 + n)) else ascii_of_nat (Z.to_nat (87 + n)).

(** One character of a quoted JSON string. *)
Definition escapeChar (c : ascii) : string :=
  let n := Js.code c in
  if n =? 34 then String "\" (String dquote EmptyString)
  else if n =? 92 then "\\"
  else if n =? 8 then "\b"
  else if n =? 9 then "\t"
  else if n =? 10 then "\n"
  else if n =? 12 then "\f"
  else if n =? 13 then "\r"
  else if n <? 32 then
    "\u00" +:+ String (hexDigit (n / 16)) (String (hexDigit (n mod 16)) EmptyString)
  else String c EmptyString.

Fixpoint escape (s : string) : string :=
  match s with
  | EmptyString => EmptyString
  | String c r => escapeChar c +:+ escape r
  end.

Definition quote (s : string) : string :=
  String dquote (escape s +:+ String dquote EmptyString).

Definition member (k rendered : string) : string := quote k +:+ ":" +:+ rendered.

(** The members of an object in serialisation order: the object's own
    order without a replacer, the replacer array's order with one. *)
Definition selectProps (allow : option (list string))
    (rendered : list (string * string)) : list string :=
  match allow with
  | None => map (fun kv => member (fst kv) (snd kv)) rendered
  | Some ks =>
      flat_map (fun k => match assoc k rendered with
                         | Some r => [member k r]
                         | None => []
                         end) ks
  end.

(** [JSON.stringify(v, allow)] where [allow] is an optional array replacer
    (it filters the properties of nested objects as well). *)
Fixpoint stringify (allow : option (list string)) (v : jval) : string :=
  match v with
  | JNull => "null"
  | JBool true => "true"
  | JBool false => "false"
  | JNum n => Js.numberToString n
  | JStr s => quote s
  | JArr items => "[" +:+ Js.join "," (map (stringify allow) items) +:+ "]"
  | JObj props =>
      "{" +:+ Js.join ","
               (selectProps allow
                  (map (fun kv => match kv with
                                  | (k, x) => (k, stringify allow x)
                                  end) props))
          +:+ "}"
  end.

(** [JSON.stringify] of an object literal [{k1: e1, ...}] whose member
    expressions may be [undefined]; such members are left out. *)
Definition stringifyLiteral (allow : option (list string))
    (fields : list (string * option jval)) : string :=
  stringify allow
    (JObj (flat_map (fun kv => match snd kv with
                               | Some x => [(fst kv, x)]
                               | None => []
                               end) fields)).

End Json.

Import Json.

(** ** Early exit

    [throw] inside a [try] block and [return res.status(..)] in a handler
    both end the surrounding function with a value of another type. *)

Inductive result (E A : Type) : Type :=
| Ok (a : A)
| Err (e : E).

Arguments Ok {E A} a.
Arguments Err {E A} e.

#[global] Instance result_ret {E} : MRet (result E) := fun A a => Ok a.

#[global] Instance result_bind {E} : MBind (result E) :=
  fun A B k c => match c with
                 | Ok a => k a
                 | Err e => Err e
                 end.

(** ** Library calls *)

(** Header of a decoded DPoP proof (the fields the verifier reads). *)
Record DPoPHeader := {
  alg : option string;
  typ : option string
}.

(** Claims of a decoded DPoP proof, at their expected JSON types. *)
Record DPoPPayload := {
  htm : option string;
  htu : option string;
  iat : option Z;
  jti : option string
}.

Class Runtime := {
  (** [crypto.createHash('sha256').update(s).digest('base64url')] *)
  sha256_base64url : string -> string;
  (** [crypto.createHash('sha256').update(s).digest('hex')] *)
  sha256_hex : string -> string;
  (** [JSON.parse(s)]; [None] when it throws *)
  JSON_parse : string -> option jval;
  (** [JSON.parse(Buffer.from(seg, 'base64url').toString())] of a proof's
      first and second segment; [None] when it throws *)
  decodeHeader : string -> option DPoPHeader;
  decodePayload : string -> option DPoPPayload;
  (** [importJWK] followed by [jwtVerify] on the whole proof at the given
      clock reading (milliseconds); [false] when either throws *)
  jwtVerify : string -> jval -> Z -> bool;
  (** The template strings [`/${parseInt(ds) + 1}`] and
      [`/${parseInt(ds) - 1}`] for a string of digits [ds] that writes a
      number above [Number.MAX_SAFE_INTEGER]: there [parseInt] and the
      addition round to a double (from 2^53 on the next double is not the
      next integer) and the conversion to a string prints the shortest
      digits that give the double back, in exponent form from 1e21 on
      ([`/${1e21 + 1}`] is [/1e+21]) *)
  roundedNeighbours : string -> string * string
}.

(** ** utils/crypto.js *)

Module Crypto.
Section WithRuntime.
Context `{Runtime}.

(** [generateKeyThumbprint(jwk)]; [None] when it throws. *)
Definition generateKeyThumbprint (jwk : jval) : option string :=
  match getProp jwk "crv", getProp jwk "kty", getProp jwk "x", getProp jwk "y" with
  | Some crv, Some kty, Some x, Some y =>
      let jwkString :=
        stringifyLiteral None [("crv", crv); ("kty", kty); ("x", x); ("y", y)] in
      Some (sha256_base64url jwkString)
  | _, _, _, _ => None
  end.

(** [v.length === 43] for a truthy member value [v]: strings and arrays
    have a length, an object has one if it has a member of that name. *)
Definition hasLength43 (v : jval) : bool :=
  match v with
  | JStr s => Z.of_nat (String.length s) =? 43
  | JArr items => Z.of_nat (length items) =? 43
  | JObj props => strictEq (assoc "length" props) (Some (JNum 43))
  | JNull | JBool _ | JNum _ => false
  end.

(** [validateJWK(jwk)] *)
Definition validateJWK (jwk : jval) : bool :=
  match jwk with
  | JNull | JBool _ | JNum _ | JStr _ => false   (* !jwk || typeof jwk !== 'object' *)
  | JArr _ => false                              (* no member [kty] *)
  | JObj props =>
      let requiredFields := ["kty"; "crv"; "x"; "y"] in
      if negb (forallb (fun field => truthy (assoc field props)) requiredFields)
      then false
      else if negb (strictEq (assoc "kty" props) (Some (JStr "EC"))) ||
              negb (strictEq (assoc "crv" props) (Some (JStr "P-256")))
      then false
      else if negb (from_option hasLength43 false (assoc "x" props)) ||
              negb (from_option hasLength43 false (assoc "y" props))
      then false
      else true
  end.

(** The messages [verifyDPoP] throws, and the failures of library calls. *)
Inductive DPoPError : Type :=
| MissingDPoPHeader     (* 'Missing DPoP header' *)
| InvalidDPoPFormat     (* 'Invalid DPoP format' *)
| DecodeFailure         (* JSON.parse or a property access throws *)
| InvalidDPoPHeader     (* 'Invalid DPoP header' *)
| MethodMismatch        (* 'DPoP method mismatch' *)
| UrlMismatch           (* 'DPoP URL mismatch' *)
| TimestampInvalid      (* 'DPoP timestamp invalid' *)
| MissingJti            (* 'Missing DPoP JTI' *)
| SignatureFailure.     (* importJWK or jwtVerify throws *)

(** [{valid: true, jti, iat}] or [{valid: false, error}] *)
Inductive DPoPResult : Type :=
| DPoPValid (jti : string) (iat : Z)
| DPoPInvalid (error : DPoPError).

Definition throwIf (b : bool) (e : DPoPError) : result DPoPError unit :=
  if b then Err e else Ok tt.

Definition orThrow {A} (o : option A) (e : DPoPError) : result DPoPError A :=
  match o with Some a => Ok a | None => Err e end.

(** [const [headerB64, payloadB64, signatureB64] = dpopHeader.split('.')]
    followed by the test that none of the three is missing or empty. *)
Definition splitProof (dpopHeader : string) : result DPoPError (string * string) :=
  match Js.split "." dpopHeader with
  | headerB64 :: payloadB64 :: signatureB64 :: _ =>
      if Js.truthy headerB64 && Js.truthy payloadB64 && Js.truthy signatureB64
      then Ok (headerB64, payloadB64)
      else Err InvalidDPoPFormat
  | _ => Err InvalidDPoPFormat
  end.

(** [payload.htm !== method.toUpperCase()] *)
Definition methodMismatch (payload : DPoPPayload) (method : string) : bool :=
  negb (bool_decide (htm payload = Some (Js.toUpperCase method))).

(** [payload.htu !== url] *)
Definition urlMismatch (payload : DPoPPayload) (url : string) : bool :=
  negb (bool_decide (htu payload = Some url)).

(** [!payload.iat || Math.abs(now - payload.iat) > 300] *)
Definition timestampInvalid (payload : DPoPPayload) (now : Z) : bool :=
  match iat payload with
  | None => true
  | Some t => (t =? 0) || (300 <? Z.abs (now - t))
  end.

(** [verifyDPoP(dpopHeader, method, url, publicKeyJwk)], with the reading
    [clock] of [Date.now()]. *)
Definition verifyDPoPSteps (clock : Z) (dpopHeader method url : string)
    (publicKeyJwk : jval) : result DPoPError (string * Z) :=
  throwIf (negb (Js.truthy dpopHeader)) MissingDPoPHeader ;;
  segs ← splitProof dpopHeader ;
  header ← orThrow (decodeHeader (fst segs)) DecodeFailure ;
  payload ← orThrow (decodePayload (snd segs)) DecodeFailure ;
  throwIf (negb (bool_decide (alg header = Some "ES256")) ||
           negb (bool_decide (typ header = Some "dpop+jwt")))
          InvalidDPoPHeader ;;
  throwIf (methodMismatch payload method) MethodMismatch ;;
  throwIf (urlMismatch payload url) UrlMismatch ;;
  let now := clock / 1000 in
  throwIf (timestampInvalid payload now) TimestampInvalid ;;
  throwIf (negb (Js.truthyOpt (jti payload))) MissingJti ;;
  throwIf (negb (jwtVerify dpopHeader publicKeyJwk clock)) SignatureFailure ;;
  Ok (Js.orEmpty (jti payload), default 0 (iat payload)).

Definition verifyDPoP (clock : Z) (dpopHeader method url : string)
    (publicKeyJwk : jval) : DPoPResult :=
  match verifyDPoPSteps clock dpopHeader method url publicKeyJwk with
  | Ok (j, t) => DPoPValid j t
  | Err e => DPoPInvalid e
  end.

End WithRuntime.
End Crypto.

(** ** utils/fingerprint.js *)

Module Fingerprint.
Section WithRuntime.
Context `{Runtime}.

(** [value || dflt] on a property that may be undefined. *)
Definition orDefault (o : option jval) (dflt : jval) : jval :=
  match o with
  | Some v => if truthy o then v else dflt
  | None => dflt
  end.

Fixpoint insertSorted (k : string) (ks : list string) : list string :=
  match ks with
  | [] => [k]
  | k' :: r => if String.leb k k' then k :: ks else k' :: insertSorted k r
  end.

(** [keys.sort()] *)
Definition sortKeys (ks : list string) : list string :=
  fold_right insertSorted [] ks.

(** The object literal [normalized]. *)
Definition normalize (props : list (string * jval)) : list (string * jval) :=
  [ ("ua", orDefault (assoc "ua" props) (JStr ""));
    ("lang", orDefault (assoc "lang" props) (JStr ""));
    ("tz", orDefault (assoc "tz" props) (JStr ""));
    ("scr", orDefault (assoc "scr" props) (JStr ""));
    ("hwc", orDefault (assoc "hwc" props) (JNum 0));
    ("mem", orDefault (assoc "mem" props) (JNum 0));
    ("platform", orDefault (assoc "platform" props) (JStr ""));
    ("webgl", orDefault (assoc "webgl" props) (JStr "")) ].

(** One round of the loop body:
    [hash ^= str.charCodeAt(i);
     hash += (hash << 1) + (hash << 4) + (hash << 7) + (hash << 8) + (hash << 24);] *)
Definition hashStep (hash : Z) (c : ascii) : Z :=
  let h := Js.bitXor hash (Js.code c) in
  h + (Js.shiftLeft h 1 + Js.shiftLeft h 4 + Js.shiftLeft h 7
       + Js.shiftLeft h 8 + Js.shiftLeft h 24).

Definition hashString (str : string) : Z :=
  fold_left hashStep (list_ascii_of_string str) 2166136261.

(** [generateFingerprintHash(fingerprintData)]; [None] is [null]. *)
Definition generateFingerprintHash (fingerprintData : jval) : option string :=
  let hashOf props :=
    let normalized := normalize props in
    let str := stringify (Some (sortKeys (map fst normalized))) (JObj normalized) in
    Some (Js.toHex (Js.toUint32 (hashString str))) in
  match fingerprintData with
  | JObj props => hashOf props
  | JArr _ => hashOf []
  | _ => None
  end.

(** [calculateLevenshteinDistance]: the row [matrix[i]] from the row above.
    [prev] is [matrix[i-1][j-1..]] and [left] is [matrix[i][j-1]]. *)
Fixpoint levenshteinRow (c2 : ascii) (str1 : string) (prev : list Z) (left : Z)
    : list Z :=
  match str1, prev with
  | String c1 r1, diag :: ((up :: _) as prev') =>
      let v := if Ascii.eqb c2 c1 then diag
               else Z.min (diag + 1) (Z.min (left + 1) (up + 1)) in
      v :: levenshteinRow c2 r1 prev' v
  | _, _ => []
  end.

Fixpoint levenshteinRows (str1 str2 : string) (i : Z) (prev : list Z) : list Z :=
  match str2 with
  | EmptyString => prev
  | String c2 r2 =>
      levenshteinRows str1 r2 (i + 1) (i :: levenshteinRow c2 str1 prev i)
  end.

Definition strLength (s : string) : Z := Z.of_nat (String.length s).

Definition calculateLevenshteinDistance (str1 str2 : string) : Z :=
  let row0 := map Z.of_nat (seq 0 (S (String.length str1))) in
  List.last (levenshteinRows str1 str2 1 row0) 0.

(** [calculateStringSimilarity(str1, str2)] *)
Definition calculateStringSimilarity (str1 str2 : string) : Q :=
  if negb (Js.truthy str1) || negb (Js.truthy str2) then 0%Q
  else if String.eqb str1 str2 then 1%Q
  else
    let longer := if strLength str2 <? strLength str1 then str1 else str2 in
    let shorter := if strLength str2 <? strLength str1 then str2 else str1 in
    if strLength longer =? 0 then 1%Q
    else
      let editDistance := calculateLevenshteinDistance longer shorter in
      (inject_Z (strLength longer - editDistance) / inject_Z (strLength longer))%Q.

(** The regular expressions [/Chrome\/(\d+)/], ..., by the literal text
    before the slash, in the order of the array [patterns]. *)
Definition patterns : list string := ["Chrome"; "Firefox"; "Safari"; "Edge"; "Opera"].

(** [ua.match(/Name\/(\d+)/)]: the digits captured at the leftmost match. *)
Fixpoint matchVersion (name : string) (ua : string) : option string :=
  let here :=
    if String.prefix (name +:+ "/") ua
    then Js.takeDigits (String.substring (String.length name + 1)
                                         (String.length ua) ua)
    else EmptyString in
  if Js.truthy here then Some here
  else match ua with
       | EmptyString => None
       | String _ r => matchVersion name r
       end.

Record BrowserInfo := { browser : string; majorVersion : Z }.

(** [extractBrowserInfo(ua)]; [browser] is [pattern.source.split('/')[0]],
    the name followed by the backslash that escapes the slash. *)
Fixpoint extractFrom (pats : list string) (ua : string) : option BrowserInfo :=
  match pats with
  | [] => None
  | name :: rest =>
      match matchVersion name ua with
      | Some ds => Some {| browser := name +:+ "\";
                           majorVersion := Js.parseDigits ds |}
      | None => extractFrom rest ua
      end
  end.

Definition extractBrowserInfo (ua : string) : option BrowserInfo :=
  extractFrom patterns ua.

(** [calculateUserAgentSimilarity(stored, current)] *)
Definition calculateUserAgentSimilarity (stored current : option jval) : Q :=
  if negb (truthy stored) || negb (truthy current) then 0%Q
  else if strictEq stored current then 1%Q
  else match stored, current with
       | Some (JStr s), Some (JStr c) =>
           match extractBrowserInfo s, extractBrowserInfo c with
           | Some storedInfo, Some currentInfo =>
               if String.eqb (browser storedInfo) (browser currentInfo) then
                 let versionDiff :=
                   Z.abs (majorVersion storedInfo - majorVersion currentInfo) in
                 Qmax 0 (1 - inject_Z versionDiff / 10)
               else 0%Q
           | _, _ => calculateStringSimilarity s c
           end
       | _, _ => 0%Q   (* [ua.match] is not a function: caught, 0 *)
       end.

Definition weights : list (string * Q) :=
  [ ("ua", 3 # 10); ("lang", 1 # 10); ("tz", 1 # 10); ("scr", 2 # 10);
    ("hwc", 1 # 10); ("mem", 1 # 10); ("platform", 5 # 100); ("webgl", 5 # 100) ]%Q.

(** What one pass of the loop adds to [matches]. *)
Definition contribution (storedData currentData : list (string * jval))
    (key : string) (weight : Q) : Q :=
  if strictEq (assoc key storedData) (assoc key currentData) then weight
  else if String.eqb key "ua" then
    (weight * calculateUserAgentSimilarity (assoc key storedData)
                                           (assoc key currentData))%Q
  else 0%Q.

(** The loop over [Object.entries(weights)]: [(matches, total)]. *)
Definition accumulate (storedData currentData : list (string * jval)) : Q * Q :=
  fold_left
    (fun acc kw =>
       (fst acc + contribution storedData currentData (fst kw) (snd kw),
        snd acc + snd kw)%Q)
    weights (0%Q, 0%Q).

(** The data an argument stands for: [typeof x === 'string' ? JSON.parse(x) : x];
    [None] when parsing throws. *)
Definition dataOf (x : jval) : option jval :=
  match x with
  | JStr s => JSON_parse s
  | _ => Some x
  end.

(** The properties read by [data[key]]; [None] when the access throws. *)
Definition propsOf (data : jval) : option (list (string * jval)) :=
  match data with
  | JNull => None
  | JObj props => Some props
  | _ => Some []
  end.

(** [compareFingerprintSimilarity(stored, current)] *)
Definition compareFingerprintSimilarity (stored current : jval) : Q :=
  if negb (truthy (Some stored)) || negb (truthy (Some current)) then 0%Q
  else match dataOf stored ≫= propsOf, dataOf current ≫= propsOf with
       | Some storedData, Some currentData =>
           let '(matches, total) := accumulate storedData currentData in
           if Js.ltQ 0 total then (matches / total)%Q else 0%Q
       | _, _ => 0%Q
       end.

End WithRuntime.
End Fingerprint.

(** ** middleware/security.js *)

Module Security.
Section WithRuntime.
Context `{Runtime}.

(** [compareFingerprints(storedHash, currentFingerprintJson, tolerance)] *)
Definition compareFingerprints (storedHash : option string)
    (currentFingerprintJson : jval) (tolerance : Q) : bool :=
  if negb (Js.truthyOpt storedHash) || negb (truthy (Some currentFingerprintJson))
  then false
  else match Fingerprint.dataOf currentFingerprintJson with
       | Some currentFingerprintData =>
           let currentHash :=
             Fingerprint.generateFingerprintHash currentFingerprintData in
           (* Compare hashes directly (exact match for now) *)
           bool_decide (storedHash = currentHash)
       | None => false
       end.

End WithRuntime.
End Security.

(** ** Requests *)

(** The parts of an Express request the two middlewares read. *)
Record Request := {
  method : string;
  path : string;
  originalUrl : string;
  secure : bool;
  headers : gmap string string;
  remoteAddress : option string;      (* req.connection.remoteAddress *)
  ip : option string;                 (* req.ip *)
  securityContextIp : option string   (* req.securityContext?.ip *)
}.

(** [req.headers[name]] *)
Definition header (req : Request) (name : string) : option string :=
  headers req !! name.

(** ** middleware/auth.js *)

Module Auth.

(** Claims of a verified bearer token. *)
Record AccessPayload := {
  sub : string;
  cnf_jkt : option string;          (* payload.cnf?.jkt *)
  device_key_id : option Z
}.

(** The row selected from [device_keys] joined with [users]. *)
Record DeviceKey := {
  public_key_jwk : string;
  fingerprint_hash : option string;
  last_ip : option string;
  username : string;
  email : string
}.

(** What one call observes of its collaborators and of [process.env]. *)
Record World := {
  clock : Z;                                        (* Date.now() *)
  NODE_ENV : option string;
  FINGERPRINT_TOLERANCE : option string;
  STRICT_IP_VALIDATION : option string;
  (** [verifyAccessToken(token)]; [None] when it throws *)
  verifyAccessToken : string -> option AccessPayload;
  (** the device-key query; [None] when it throws, [Some None] for no row *)
  getDeviceKey : Z -> option Z -> option (option DeviceKey);
  (** whether the two [UPDATE device_keys] statements succeed *)
  updateLastIp : bool;
  updateLastUsed : bool;
  (** [parseFloat(s)]; [None] is [NaN] *)
  parseFloat : string -> option Q
}.

Record User := {
  id : option Z;
  user_username : string;
  user_email : string;
  deviceKeyId : Z
}.

(** How the handler ends: a response, or [next()] with the request
    annotated. *)
Inductive Outcome : Type :=
| Respond (status : Z) (error : string)
| Next (user : User) (fingerprintMismatch ipChanged : bool).

Definition ReplayDetected : Outcome := Respond 401 "DPoP proof replay detected".

(** The [catch] of the outer [try]. *)
Definition AuthenticationFailed : Outcome := Respond 500 "Authentication failed".

Definition JTI_CACHE_SIZE : Z := 10000.

(** The body of the [setInterval] callback. *)
Definition cleanJtiCache (jtiCache : gset string) : gset string :=
  if decide (JTI_CACHE_SIZE < Z.of_nat (size jtiCache)) then ∅ else jtiCache.

(** [parseInt(s)] of an optionally signed decimal numeral; [None] is [NaN]. *)
Definition parseInt (s : string) : option Z :=
  let unsigned t :=
    let ds := Js.takeDigits t in
    if Js.truthy ds then Some (Js.parseDigits ds) else None in
  match s with
  | String "-" r => Z.opp <$> unsigned r
  | String "+" r => unsigned r
  | _ => unsigned s
  end.

(** What the handler knows once the proof has been verified. *)
Record Verified := {
  userId : option Z;
  keyId : Z;
  deviceKey : DeviceKey;
  proofJti : string
}.

Section WithRuntime.
Context `{Runtime}.

Definition respondIf (b : bool) (out : Outcome) : result Outcome unit :=
  if b then Err out else Ok tt.

Definition orRespond {A} (o : option A) (out : Outcome) : result Outcome A :=
  match o with Some a => Ok a | None => Err out end.

(** [`${protocol}://${host}${req.originalUrl}`] *)
Definition fullUrl (req : Request) : string :=
  let protocol :=
    if secure req || bool_decide (header req "x-forwarded-proto" = Some "https")
    then "https" else "http" in
  let host := default "undefined" (header req "host") in
  protocol +:+ "://" +:+ host +:+ originalUrl req.

(** The handler up to and including proof verification (everything before
    the replay check); none of it reads or writes the jti cache. *)
Definition verifyRequest (w : World) (req : Request) : result Outcome Verified :=
  let authHeader := header req "authorization" in
  respondIf (negb (Js.truthyOpt authHeader) ||
             negb (Js.startsWith (Js.orEmpty authHeader) "Bearer "))
            (Respond 401 "Missing or invalid authorization header") ;;
  let token := String.substring 7 (String.length (Js.orEmpty authHeader))
                                (Js.orEmpty authHeader) in
  let dpopHeader := header req "dpop" in
  respondIf (negb (Js.truthyOpt dpopHeader)) (Respond 401 "Missing DPoP header") ;;
  payload ← orRespond (verifyAccessToken w token)
                      (Respond 401 "Invalid or expired token") ;
  let userId := parseInt (sub payload) in
  let keyThumbprint := cnf_jkt payload in
  let deviceKeyId := device_key_id payload in
  respondIf (negb (Js.truthyOpt keyThumbprint) ||
             negb (truthy (JNum <$> deviceKeyId)))
            (Respond 401 "Token not properly bound to device") ;;
  found ← orRespond (getDeviceKey w (default 0 deviceKeyId) userId)
                    AuthenticationFailed ;
  deviceKey ← orRespond found (Respond 401 "Device key not found or inactive") ;
  publicKeyJwk ← orRespond (JSON_parse (public_key_jwk deviceKey))
                           (Respond 500 "Invalid stored device key") ;
  storedThumbprint ← orRespond (Crypto.generateKeyThumbprint publicKeyJwk)
                               AuthenticationFailed ;
  respondIf (negb (bool_decide (Some storedThumbprint = keyThumbprint)))
            (Respond 401 "Key thumbprint mismatch") ;;
  match Crypto.verifyDPoP (clock w) (Js.orEmpty dpopHeader) (method req)
                          (fullUrl req) publicKeyJwk with
  | Crypto.DPoPInvalid _ => Err (Respond 401 "Invalid DPoP proof")
  | Crypto.DPoPValid jti _ =>
      Ok {| userId := userId; keyId := default 0 deviceKeyId;
            deviceKey := deviceKey; proofJti := jti |}
  end.

(** [parseFloat(process.env.FINGERPRINT_TOLERANCE) || 0.7] *)
Definition tolerance (w : World) : Q :=
  match FINGERPRINT_TOLERANCE w ≫= parseFloat w with
  | Some q => if Qeq_bool q 0 then (7 # 10)%Q else q
  | None => (7 # 10)%Q
  end.

(** The fingerprint validation: the production rejection, or the value of
    [req.fingerprintMismatch]. *)
Definition fingerprintValidation (w : World) (req : Request) (v : Verified)
    : result Outcome bool :=
  let currentFingerprint := header req "x-fingerprint" in
  if Js.truthyOpt (fingerprint_hash (deviceKey v)) && Js.truthyOpt currentFingerprint
  then
    let fingerprintMatch :=
      Security.compareFingerprints (fingerprint_hash (deviceKey v))
                                   (JStr (Js.orEmpty currentFingerprint))
                                   (tolerance w) in
    if negb fingerprintMatch then
      if bool_decide (NODE_ENV w = Some "production")
      then Err (Respond 401 "Device verification failed")
      else Ok true
    else Ok false
  else Ok false.

(** The IP validation: the value of [req.ipChanged]. *)
Definition ipValidation (w : World) (req : Request) (v : Verified)
    : result Outcome bool :=
  let currentIP := securityContextIp req in
  if Js.truthyOpt (last_ip (deviceKey v)) && Js.truthyOpt currentIP &&
     bool_decide (STRICT_IP_VALIDATION w = Some "true")
  then
    if negb (bool_decide (last_ip (deviceKey v) = currentIP)) then
      respondIf (negb (updateLastIp w)) AuthenticationFailed ;;
      Ok true
    else Ok false
  else Ok false.

(** The handler after the jti has been recorded. *)
Definition afterReplayCheck (w : World) (req : Request) (v : Verified)
    : result Outcome Outcome :=
  fingerprintMismatch ← fingerprintValidation w req v ;
  ipChanged ← ipValidation w req v ;
  respondIf (negb (updateLastUsed w)) AuthenticationFailed ;;
  Ok (Next {| id := userId v;
              user_username := username (deviceKey v);
              user_email := email (deviceKey v);
              deviceKeyId := keyId v |}
           fingerprintMismatch ipChanged).

Definition finish (r : result Outcome Outcome) : Outcome :=
  match r with Ok out => out | Err out => out end.

(** [authenticateToken(req, res, next)] as a transition of the module-level
    [jtiCache]. *)
Definition authenticateToken (w : World) (req : Request) (jtiCache : gset string)
    : Outcome * gset string :=
  match verifyRequest w req with
  | Err out => (out, jtiCache)
  | Ok v =>
      (* Check for JTI replay *)
      if decide (proofJti v ∈ jtiCache) then (ReplayDetected, jtiCache)
      else
        (* Add JTI to cache *)
        let jtiCache := {[proofJti v]} ∪ jtiCache in
        (finish (afterReplayCheck w req v), jtiCache)
  end.

(** How [optionalAuth] ends: as [authenticateToken] does, or with
    [req.user = null; next()]. *)
Inductive OptionalOutcome : Type :=
| Authenticated (out : Outcome)
| Anonymous.

(** [optionalAuth(req, res, next)] *)
Definition optionalAuth (w : World) (req : Request) (jtiCache : gset string)
    : OptionalOutcome * gset string :=
  let authHeader := header req "authorization" in
  let dpopHeader := header req "dpop" in
  if Js.truthyOpt authHeader && Js.truthyOpt dpopHeader then
    let r := authenticateToken w req jtiCache in
    (Authenticated (fst r), snd r)
  else (Anonymous, jtiCache).

(** What happens to the cache over time: requests and timer ticks. *)
Inductive Event : Type :=
| Arrives (w : World) (req : Request)
| Tick.

Definition step (jtiCache : gset string) (e : Event) : gset string :=
  match e with
  | Arrives w req => snd (authenticateToken w req jtiCache)
  | Tick => cleanJtiCache jtiCache
  end.

Definition run (es : list Event) (jtiCache : gset string) : gset string :=
  fold_left step es jtiCache.

Definition isArrival (e : Event) : bool :=
  match e with Arrives _ _ => true | Tick => false end.

End WithRuntime.
End Auth.

(** ** middleware/antiScraping.js *)

Module AntiScraping.

(** An entry of [pattern.requests]. *)
Record Entry := {
  timestamp : Z;
  entryPath : string;
  entryMethod : string;
  userAgent : option string
}.

(** A value of the map [requestPatterns].  The two [Set]s are kept in
    insertion order, without repetitions. *)
Record Pattern := {
  requests : list Entry;
  paths : list string;
  userAgents : list (option string);
  suspicionScore : Z
}.

(** [set.add(x)] *)
Definition setAdd {A} `{EqDecision A} (x : A) (s : list A) : list A :=
  if decide (x ∈ s) then s else s ++ [x].

Definition sizeOf {A} (l : list A) : Z := Z.of_nat (length l).

(** [requests.slice(1).map((req, i) => req.timestamp - requests[i].timestamp)] *)
Fixpoint intervalsOf (ts : list Z) : list Z :=
  match ts with
  | a :: ((b :: _) as r) => (b - a) :: intervalsOf r
  | _ => []
  end.

Definition sumZ (l : list Z) : Z := fold_left Z.add l 0.

(** [intervals.reduce((a, b) => a + b, 0) / intervals.length] *)
Definition average (intervals : list Z) : Q :=
  (inject_Z (sumZ intervals) / inject_Z (sizeOf intervals))%Q.

(** [intervals.reduce((sum, x) => sum + Math.pow(x - avg, 2), 0) / intervals.length] *)
Definition varianceOf (intervals : list Z) : Q :=
  let avgInterval := average intervals in
  (fold_left (fun sum interval => sum + (inject_Z interval - avgInterval) ^ 2)
             intervals 0
   / inject_Z (sizeOf intervals))%Q.

(** [path.match(/\/(\d+)$/)]: the digits captured at the leftmost match. *)
Fixpoint matchTrailingNumber (path : string) : option string :=
  match path with
  | EmptyString => None
  | String c r =>
      if Ascii.eqb c "/" && Js.truthy r && Js.allDigits r then Some r
      else matchTrailingNumber r
  end.

(** [`/${num + 1}`] and [`/${num - 1}`] with [num = parseInt(ds)]: the
    decimal neighbours of the number as long as it is a safe integer
    ([num + 1] is then at most 2^53 and [num - 1] at least -1, both doubles
    of their own), what the engine rounds and prints otherwise. *)
Definition neighbourPaths `{Runtime} (ds : string) : string * string :=
  let num := Js.parseDigits ds in
  if num <=? Js.MAX_SAFE_INTEGER
  then ("/" +:+ Js.numberToString (num + 1), "/" +:+ Js.numberToString (num - 1))
  else roundedNeighbours ds.

(** The callback of [pathArray.some(...)]. *)
Definition hasNeighbour `{Runtime} (pathArray : list string) (path : string)
    : bool :=
  match matchTrailingNumber path with
  | Some ds =>
      let '(up, down) := neighbourPaths ds in
      bool_decide (up ∈ pathArray) || bool_decide (down ∈ pathArray)
  | None => false
  end.

Definition hasSequentialPaths `{Runtime} (pathArray : list string) : bool :=
  existsb (hasNeighbour pathArray) pathArray.

Definition frequencyScore (n : Z) : Z :=
  if 50 <? n then 30 else if 20 <? n then 15 else 0.

Definition intervalScore (reqs : list Entry) : Z :=
  if 5 <? sizeOf reqs then
    let intervals := intervalsOf (map timestamp reqs) in
    if Js.ltQ (varianceOf intervals) 1000 && Js.ltQ (average intervals) 5000
    then 25 else 0
  else 0.

Definition diversityScore (uniquePaths totalRequests : Z) : Z :=
  if 10 <? totalRequests then
    let diversity := (inject_Z uniquePaths / inject_Z totalRequests)%Q in
    (if Js.ltQ (8 # 10) diversity then 20 else 0) +
    (if Js.ltQ diversity (1 # 10) then 15 else 0)
  else 0.

(** [calculateSuspicionScore(pattern)] *)
Definition calculateSuspicionScore `{Runtime} (pattern : Pattern) : Z :=
  let reqs := requests pattern in
  if sizeOf reqs =? 0 then 0
  else
    let score := 0 in
    let score := score + frequencyScore (sizeOf reqs) in
    let score := score + intervalScore reqs in
    let score := score + diversityScore (sizeOf (paths pattern)) (sizeOf reqs) in
    let score := score + (if hasSequentialPaths (paths pattern) then 20 else 0) in
    let score := score + (if 3 <? sizeOf (userAgents pattern) then 15 else 0) in
    Z.min score 100.

(** The regular expressions of [botUserAgents], all case-insensitive
    alternations of literal words. *)
Definition botUserAgents : list (list string) :=
  [ ["bot"; "crawler"; "spider"; "scraper"];
    ["curl"; "wget"; "python"; "java"; "go-http"];
    ["headless"; "phantom"; "selenium"; "webdriver"];
    ["postman"; "insomnia"; "httpie"] ].

(** [regex.test(s)] for such an alternation. *)
Definition testAlternation (words : list string) (s : string) : bool :=
  existsb (Js.includes (Js.toLowerCase s)) words.

Definition essentialHeaders : list string :=
  ["accept"; "accept-language"; "accept-encoding"].

(** The singleton's state is the map [requestPatterns]. *)
Abbreviation State := (gmap string Pattern).

(** How the middleware ends. *)
Inductive Outcome : Type :=
| PassThrough (securityHeaders : bool)   (* next() *)
| BotDetected                            (* 403, code BOT_DETECTED *)
| TooManyRequests                        (* 429 *)
| SuspiciousActivity.                    (* 403, code SUSPICIOUS_ACTIVITY *)

Section WithRuntime.
Context `{Runtime}.

(** [getClientId(req)] *)
Definition getClientId (req : Request) : string :=
  let address :=
    if Js.truthyOpt (remoteAddress req) then Js.orEmpty (remoteAddress req)
    else Js.orEmpty (ip req) in
  let factors :=
    Js.join "|" [ Js.orEmpty (header req "user-agent");
                  Js.orEmpty (header req "accept-language");
                  Js.orEmpty (header req "accept-encoding");
                  address ] in
  String.substring 0 16 (sha256_hex factors).

(** [analyzeRequestPattern(req, clientId)] at the clock reading [now]. *)
Definition analyzeRequestPattern (now : Z) (req : Request) (clientId : string)
    (st : State) : State :=
  let pattern :=
    default {| requests := []; paths := []; userAgents := []; suspicionScore := 0 |}
            (st !! clientId) in
  let reqs := requests pattern ++
              [ {| timestamp := now; entryPath := path req;
                   entryMethod := method req;
                   userAgent := header req "user-agent" |} ] in
  let pattern :=
    {| requests := filter (fun r => now - timestamp r < 600000) reqs;
       paths := setAdd (path req) (paths pattern);
       userAgents := setAdd (header req "user-agent") (userAgents pattern);
       suspicionScore := suspicionScore pattern |} in
  let pattern :=
    {| requests := requests pattern; paths := paths pattern;
       userAgents := userAgents pattern;
       suspicionScore := calculateSuspicionScore pattern |} in
  <[clientId := pattern]> st.

(** [detectBot(req)] *)
Definition detectBot (req : Request) (st : State) : bool :=
  let userAgent := Js.orEmpty (header req "user-agent") in
  let clientId := getClientId req in
  let pattern := st !! clientId in
  if existsb (fun regex => testAlternation regex userAgent) botUserAgents then true
  else
    let missingHeaders :=
      filter (fun h => Js.truthyOpt (header req h) = false) essentialHeaders in
    if 1 <? sizeOf missingHeaders then true
    else
      let accept := Js.orEmpty (header req "accept") in
      if String.eqb accept "*/*" || String.eqb accept "" then true
      else if match pattern with
              | Some p => 70 <? suspicionScore p
              | None => false
              end then true
      else if negb (Js.truthyOpt (header req "referer")) &&
              negb (String.eqb (path req) "/") &&
              negb (Js.startsWith (path req) "/api/") then true
      else false.

(** [isRequestTooFrequent(clientId)] at the clock reading [now]. *)
Definition isRequestTooFrequent (now : Z) (clientId : string) (st : State) : bool :=
  match st !! clientId with
  | None => false
  | Some pattern =>
      let recentRequests :=
        filter (fun r => now - timestamp r < 60000) (requests pattern) in
      30 <? sizeOf recentRequests
  end.

(** [validateBrowserHeaders(req)] *)
Definition validateBrowserHeaders (req : Request) : bool :=
  let userAgent := Js.orEmpty (header req "user-agent") in
  let accept := Js.orEmpty (header req "accept") in
  let acceptLanguage := Js.orEmpty (header req "accept-language") in
  let acceptEncoding := Js.orEmpty (header req "accept-encoding") in
  if negb (Js.includes accept "text/html") && negb (Js.startsWith (path req) "/api/")
  then false
  else if negb (Js.includes acceptEncoding "gzip") then false
  else if negb (Js.truthy acceptLanguage) && negb (Js.startsWith (path req) "/api/")
  then false
  else if (Z.of_nat (String.length userAgent) <? 20) ||
          negb (Js.includes userAgent "Mozilla") then false
  else true.

(** The state change of [handleSuspiciousActivity(req, res, reason)]:
    [pattern.suspicionScore += 20] on the client's stored pattern. *)
Definition handleSuspiciousActivity (req : Request) (st : State) : State :=
  let clientId := getClientId req in
  match st !! clientId with
  | Some pattern =>
      <[clientId := {| requests := requests pattern; paths := paths pattern;
                       userAgents := userAgents pattern;
                       suspicionScore := suspicionScore pattern + 20 |}]> st
  | None => st
  end.

(** The function returned by [middleware()].  [now] is the clock reading
    of the pattern analysis, [now'] that of the frequency check. *)
Definition middleware (now now' : Z) (req : Request) (st : State)
    : Outcome * State :=
  let clientId := getClientId req in
  (* Skip for authenticated API calls (they have their own protection) *)
  if Js.startsWith (path req) "/api/" && Js.truthyOpt (header req "authorization")
  then (PassThrough false, st)
  else
    let st := analyzeRequestPattern now req clientId st in
    if detectBot req st then (BotDetected, st)
    else if isRequestTooFrequent now' clientId st
    then (TooManyRequests, handleSuspiciousActivity req st)
    else if negb (validateBrowserHeaders req)
    then (SuspiciousActivity, handleSuspiciousActivity req st)
    else (PassThrough true, st).

(** [cleanup()] at the clock reading [now]. *)
Definition cleanup (now : Z) (st : State) : State :=
  omap (fun pattern =>
          let reqs := filter (fun r => now - timestamp r < 3600000)
                             (requests pattern) in
          if sizeOf reqs =? 0 then None
          else Some {| requests := reqs; paths := paths pattern;
                       userAgents := userAgents pattern;
                       suspicionScore := suspicionScore pattern |}) st.

(** What happens to the singleton over time. *)
Inductive Event : Type :=
| Handles (now now' : Z) (req : Request)
| Cleans (now : Z).

Definition step (st : State) (e : Event) : State :=
  match e with
  | Handles now now' req => snd (middleware now now' req st)
  | Cleans now => cleanup now st
  end.

(** The states the singleton can be in, starting from the constructor's
    empty map. *)
Inductive reachable : State -> Prop :=
| reachable_init : reachable ∅
| reachable_step st e : reachable st -> reachable (step st e).

End WithRuntime.
End AntiScraping.

(** One request seen by the middleware, with the two clock readings taken
    while it is handled. *)
Record Hit := {
  hitTime : Z;
  hitTime' : Z;
  hitRequest : Request
}.

(** ** A concrete runtime for evaluation

    The hash functions are the identity (an injective stand-in), the JSON
    parser inverts [stringify] on a fixed corpus, proof segments are decoded
    through tables, every signature verifies, and the neighbours of a few
    large numerals are listed as Node prints them. *)

Module Demo.

Definition parseAmong (corpus : list jval) (s : string) : option jval :=
  find (fun v => String.eqb (stringify None v) s) corpus.

Definition jwkMembers : list (string * jval) :=
  [("kty", JStr "EC"); ("crv", JStr "P-256");
   ("x", JStr "f83OJ3D2xF1Bg8vub9tLe1gHMzV76e8Tus9uPHvRVEU");
   ("y", JStr "x_FEzRu9m36HLN_tue659LNpXW6pCyStikYjKIWI5a0")].

Definition jwk : jval := JObj jwkMembers.

(** The same key exported with its members in another order and with two
    further members. *)
Definition jwkReorderedMembers : list (string * jval) :=
  [("y", JStr "x_FEzRu9m36HLN_tue659LNpXW6pCyStikYjKIWI5a0");
   ("ext", JBool true);
   ("x", JStr "f83OJ3D2xF1Bg8vub9tLe1gHMzV76e8Tus9uPHvRVEU");
   ("crv", JStr "P-256"); ("key_ops", JArr [JStr "verify"]);
   ("kty", JStr "EC")].

Definition jwkReordered : jval := JObj jwkReorderedMembers.

Definition fingerprintMembers (ua platform : string) : list (string * jval) :=
  [("ua", JStr ua); ("lang", JStr "en-US,en"); ("tz", JStr "Europe/Paris");
   ("scr", JStr "1920x1080@1"); ("hwc", JNum 8); ("mem", JNum 8);
   ("platform", JStr platform); ("webgl", JStr "Intel|Iris")].

Definition fingerprint (ua platform : string) : jval :=
  JObj (fingerprintMembers ua platform).

Definition chrome (major : string) : string :=
  "Mozilla/5.0 (Windows NT 10.0; Win64; x64) AppleWebKit/537.36 (KHTML, like Gecko) Chrome/"
  +:+ major +:+ ".0.0.0 Safari/537.36".

Definition fpStored : jval := fingerprint (chrome "120") "Win32".
Definition fpOtherPlatform : jval := fingerprint (chrome "120") "Win64".
Definition fpFiveVersionsLater : jval := fingerprint (chrome "125") "Win32".

Definition corpus : list jval :=
  [jwk; jwkReordered; fpStored; fpOtherPlatform; fpFiveVersionsLater].

Definition url : string := "https://api.example.com/api/posts?page=2".

Definition payloads : list (string * DPoPPayload) :=
  [ ("upper", {| htm := Some "GET"; htu := Some url;
                 iat := Some 1700000000; jti := Some "jti-1" |});
    ("lower", {| htm := Some "get"; htu := Some url;
                 iat := Some 1700000000; jti := Some "jti-2" |});
    ("epoch", {| htm := Some "GET"; htu := Some url;
                 iat := Some 0; jti := Some "jti-3" |}) ].

(** What Node prints for three numerals above the safe integers: 2^53 + 1
    is read as 2^53, whose successor rounds back to 2^53; 1e21 and
    1e21 + 1 are both read as 1e21, which stays 1e21 when one is added or
    subtracted and is printed in exponent form.  The examples use no other
    large numeral; the runtime answers for them as for a numeral past the
    largest double, [/Infinity]. *)
Definition largeNumerals : list (string * (string * string)) :=
  [ ("9007199254740993", ("/9007199254740992", "/9007199254740991"));
    ("1000000000000000000000", ("/1e+21", "/1e+21"));
    ("1000000000000000000001", ("/1e+21", "/1e+21")) ].

Definition runtime : Runtime := {|
  sha256_base64url := fun s => s;
  sha256_hex := fun s => s;
  JSON_parse := parseAmong corpus;
  decodeHeader := fun seg =>
    if String.eqb seg "hdr"
    then Some {| alg := Some "ES256"; typ := Some "dpop+jwt" |} else None;
  decodePayload := fun seg => assoc seg payloads;
  jwtVerify := fun _ _ _ => true;
  roundedNeighbours := fun ds =>
    default ("/Infinity", "/Infinity") (assoc ds largeNumerals)
|}.

(** The hash stored for the device at login. *)
Definition storedHash : option string :=
  Fingerprint.generateFingerprintHash fpStored.

Definition accessPayload : Auth.AccessPayload :=
  {| Auth.sub := "42";
     Auth.cnf_jkt := Crypto.generateKeyThumbprint (H := runtime) jwk;
     Auth.device_key_id := Some 7 |}.

Definition deviceKey : Auth.DeviceKey :=
  {| Auth.public_key_jwk := stringify None jwk;
     Auth.fingerprint_hash := storedHash;
     Auth.last_ip := None;
     Auth.username := "alice";
     Auth.email := "alice@example.com" |}.

(** A deployment with the given [NODE_ENV] and tolerance setting, read at
    the given clock. *)
Definition world (nodeEnv tolerance : option string) (clock : Z) : Auth.World :=
  {| Auth.clock := clock;
     Auth.NODE_ENV := nodeEnv;
     Auth.FINGERPRINT_TOLERANCE := tolerance;
     Auth.STRICT_IP_VALIDATION := None;
     Auth.verifyAccessToken := fun token =>
       if String.eqb token "token" then Some accessPayload else None;
     Auth.getDeviceKey := fun k u =>
       if (k =? 7) && bool_decide (u = Some 42) then Some (Some deviceKey)
       else Some None;
     Auth.updateLastIp := true;
     Auth.updateLastUsed := true;
     Auth.parseFloat := fun s =>
       if String.eqb s "0.9" then Some (9 # 10)%Q else None |}.

(** A request for [url] carrying the proof and, possibly, a fingerprint. *)
Definition request (proof : string) (fp : option jval) : Request :=
  {| method := "GET";
     path := "/api/posts";
     originalUrl := "/api/posts?page=2";
     secure := true;
     headers :=
       list_to_map
         ([("authorization", "Bearer token"); ("dpop", proof);
           ("host", "api.example.com")] ++
          match fp with
          | Some v => [("x-fingerprint", stringify None v)]
          | None => []
          end);
     remoteAddress := Some "203.0.113.7";
     ip := Some "203.0.113.7";
     securityContextIp := Some "203.0.113.7" |}.

Definition verified (jti : string) : Auth.Verified :=
  {| Auth.userId := Some 42; Auth.keyId := 7;
     Auth.deviceKey := deviceKey; Auth.proofJti := jti |}.

Definition alice : Auth.User :=
  {| Auth.id := Some 42; Auth.user_username := "alice";
     Auth.user_email := "alice@example.com"; Auth.deviceKeyId := 7 |}.

(** A page request with the headers a browser sends. *)
Definition pageRequest (encoding path : string) : Request :=
  {| method := "GET";
     path := path;
     originalUrl := path;
     secure := true;
     headers :=
       list_to_map
         [("user-agent", chrome "120");
          ("accept", "text/html,application/xhtml+xml");
          ("accept-language", "en-US,en");
          ("accept-encoding", encoding);
          ("referer", "https://shop.example.com/");
          ("host", "shop.example.com")];
     remoteAddress := Some "198.51.100.23";
     ip := Some "198.51.100.23";
     securityContextIp := Some "198.51.100.23" |}.

(** A command-line client calling the API with a bearer token. *)
Definition curlApiRequest : Request :=
  {| method := "GET";
     path := "/api/posts";
     originalUrl := "/api/posts";
     secure := true;
     headers :=
       list_to_map [("user-agent", "curl/8.4.0"); ("accept", "*/*");
                    ("authorization", "Bearer token")];
     remoteAddress := Some "198.51.100.99";
     ip := Some "198.51.100.99";
     securityContextIp := Some "198.51.100.99" |}.



(** Sixty product pages, one a second. *)
Definition crawl : list Hit :=
  map (fun k : nat =>
         {| hitTime := 1700000000000 + 1000 * Z.of_nat k;
            hitTime' := 1700000000000 + 1000 * Z.of_nat k;
            hitRequest :=
              pageRequest "gzip, deflate, br"
                          ("/products/" +:+ Js.numberToString (Z.of_nat k)) |})
      (seq 1 60).

End Demo.

(** * Properties *)

(** ** Key thumbprint *)

Section KeyThumbprint.
Context `{Runtime}.

(** The members that define the key. *)
Definition canonicalFields : list string := ["crv"; "kty"; "x"; "y"].

Lemma assoc_Some_elem {A} (k : string) (v : A) (kvs : list (string * A)) :
  assoc k kvs = Some v -> (k, v) ∈ kvs.
Proof.
  induction kvs as [|[k' v'] r IH]; simpl; [discriminate|].
  destruct (String.eqb_spec k k') as [->|Hne].
  - intros [= ->]. left.
  - intros Hr. right. auto.
Qed.

Lemma elem_assoc_Some {A} (k : string) (v : A) (kvs : list (string * A)) :
  NoDup (map fst kvs) -> (k, v) ∈ kvs -> assoc k kvs = Some v.
Proof.
  induction kvs as [|[k' v'] r IH]; simpl; intros Hnd Hin.
  - by apply elem_of_nil in Hin.
  - apply NoDup_cons in Hnd as [Hfresh Hnd].
    apply elem_of_cons in Hin as [[= <- <-]|Hin].
    + by rewrite String.eqb_refl.
    + destruct (String.eqb_spec k k') as [->|Hne]; [|auto].
      exfalso. apply Hfresh. apply (list_elem_of_fmap_2 fst _ _ Hin).
  Qed.

(** Reading a member does not depend on the order of the members. *)
Lemma assoc_Permutation {A} (k : string) (l1 l2 : list (string * A)) :
  NoDup (map fst l1) -> l1 ≡ₚ l2 -> assoc k l1 = assoc k l2.
Proof.
  intros Hnd Hperm.
  assert (Hnd2 : NoDup (map fst l2)) by (by rewrite <- Hperm).
  destruct (assoc k l1) as [v|] eqn:E1.
  - symmetry. apply elem_assoc_Some; [done|].
    rewrite <- Hperm. by apply assoc_Some_elem.
  - destruct (assoc k l2) as [v|] eqn:E2; [|done].
    apply assoc_Some_elem in E2. rewrite <- Hperm in E2.
    apply (elem_assoc_Some _ _ _ Hnd) in E2. congruence.
Qed.

(** The thumbprint reads the four canonical members and nothing else. *)
Lemma thumbprint_reads_canonical (jwk1 jwk2 : jval) :
  (forall k, k ∈ canonicalFields -> getProp jwk1 k = getProp jwk2 k) ->
  Crypto.generateKeyThumbprint jwk1 = Crypto.generateKeyThumbprint jwk2.
Proof.
  intros Hagree. unfold Crypto.generateKeyThumbprint.
  rewrite !Hagree by (unfold canonicalFields; set_solver).
  reflexivity.
Qed.

(** C8.  Two representations of a public key that agree on the canonical
    members [crv], [kty], [x] and [y] have the same thumbprint, whatever
    other members they carry; a representation with the members in another
    order has it as well; and the thumbprint of an object is always
    produced, so that recomputing it gives the same value again. *)
Theorem thumbprint_canonical (jwk1 jwk2 : list (string * jval)) :
  (forall k, k ∈ canonicalFields -> assoc k jwk1 = assoc k jwk2) ->
  Crypto.generateKeyThumbprint (JObj jwk1) = Crypto.generateKeyThumbprint (JObj jwk2)
  /\ (forall jwk1', NoDup (map fst jwk1) -> jwk1 ≡ₚ jwk1' ->
        Crypto.generateKeyThumbprint (JObj jwk1')
        = Crypto.generateKeyThumbprint (JObj jwk2))
  /\ is_Some (Crypto.generateKeyThumbprint (JObj jwk1)).
Proof.
  intros Hagree. split; [|split].
  - apply thumbprint_reads_canonical. intros k Hk. simpl. f_equal. auto.
  - intros jwk1' Hnd Hperm. apply thumbprint_reads_canonical.
    intros k Hk. simpl. f_equal.
    rewrite <- (assoc_Permutation k jwk1 jwk1' Hnd Hperm). auto.
  - unfold Crypto.generateKeyThumbprint. simpl. eauto.
Qed.

End KeyThumbprint.

Lemma thumbprint_canonical_witness :
  Crypto.generateKeyThumbprint (H := Demo.runtime) Demo.jwk
  = Crypto.generateKeyThumbprint (H := Demo.runtime) Demo.jwkReordered.
Proof.
  refine (proj1 (thumbprint_canonical (H := Demo.runtime)
                   Demo.jwkMembers Demo.jwkReorderedMembers _)).
  intros k Hk. unfold canonicalFields in Hk.
  repeat (apply elem_of_cons in Hk as [->|Hk]; [reflexivity|]).
  by apply elem_of_nil in Hk.
Defined.

(** ** Proof verification *)

(** Equality of two method names up to the case of their letters. *)
Definition equalsIgnoreCase (a b : string) : bool :=
  String.eqb (Js.toLowerCase a) (Js.toLowerCase b).

Section ProofVerifier.
Context `{Runtime}.

(** Every check of [verifyDPoP] other than the method check and the
    timestamp check passes on the proof, whose claims are [p]. *)
Definition decodesTo (dpopHeader : string) (p : DPoPPayload) : Prop :=
  Js.truthy dpopHeader = true /\
  exists headerB64 payloadB64 hdr,
    Crypto.splitProof dpopHeader = Ok (headerB64, payloadB64) /\
    decodeHeader headerB64 = Some hdr /\
    decodePayload payloadB64 = Some p /\
    alg hdr = Some "ES256" /\ typ hdr = Some "dpop+jwt".

Definition restValid (clock : Z) (dpopHeader url : string) (key : jval)
    (p : DPoPPayload) : Prop :=
  Crypto.urlMismatch p url = false /\
  Js.truthyOpt (jti p) = true /\
  jwtVerify dpopHeader key clock = true.

Lemma upperChar_idem c : Js.upperChar (Js.upperChar c) = Js.upperChar c.
Proof. by destruct c as [[] [] [] [] [] [] [] []]. Qed.

Lemma lower_upperChar c : Js.lowerChar (Js.upperChar c) = Js.lowerChar c.
Proof. by destruct c as [[] [] [] [] [] [] [] []]. Qed.

Lemma upper_lowerChar c : Js.upperChar (Js.lowerChar c) = Js.upperChar c.
Proof. by destruct c as [[] [] [] [] [] [] [] []]. Qed.

Lemma toUpperCase_idem s : Js.toUpperCase (Js.toUpperCase s) = Js.toUpperCase s.
Proof. induction s; simpl; [done|]. by rewrite upperChar_idem, IHs. Qed.

Lemma toLower_toUpper s : Js.toLowerCase (Js.toUpperCase s) = Js.toLowerCase s.
Proof. induction s; simpl; [done|]. by rewrite lower_upperChar, IHs. Qed.

Lemma toUpper_toLower s : Js.toUpperCase (Js.toLowerCase s) = Js.toUpperCase s.
Proof. induction s; simpl; [done|]. by rewrite upper_lowerChar, IHs. Qed.

(** The method check passes exactly on the upper-case form of the request
    method. *)
Lemma methodMismatch_false (p : DPoPPayload) (method : string) :
  Crypto.methodMismatch p method = false <-> htm p = Some (Js.toUpperCase method).
Proof.
  unfold Crypto.methodMismatch. rewrite negb_false_iff. apply bool_decide_eq_true.
Qed.

(** The verifier up to the method check. *)
Lemma verifyDPoP_at_method (clock : Z) (dpopHeader method url : string)
    (key : jval) (p : DPoPPayload) :
  decodesTo dpopHeader p ->
  Crypto.verifyDPoPSteps clock dpopHeader method url key =
    (Crypto.throwIf (Crypto.methodMismatch p method) Crypto.MethodMismatch ;;
     Crypto.throwIf (Crypto.urlMismatch p url) Crypto.UrlMismatch ;;
     Crypto.throwIf (Crypto.timestampInvalid p (clock / 1000))
                    Crypto.TimestampInvalid ;;
     Crypto.throwIf (negb (Js.truthyOpt (jti p))) Crypto.MissingJti ;;
     Crypto.throwIf (negb (jwtVerify dpopHeader key clock))
                    Crypto.SignatureFailure ;;
     Ok (Js.orEmpty (jti p), default 0 (iat p))).
Proof.
  intros [Htruthy (h & pl & hdr & Hsplit & Hh & Hp & Halg & Htyp)].
  unfold Crypto.verifyDPoPSteps.
  rewrite Htruthy, Hsplit. simpl. rewrite Hh, Hp. simpl.
  rewrite Halg, Htyp. reflexivity.
Qed.

(** C4, as the code has it.  On a proof that decodes, the method check
    succeeds exactly when the claimed method is the request method
    converted to upper case, that is, when the claimed method is written
    in upper case and equals the request method up to case; otherwise
    verification fails with the method-mismatch error. *)
Theorem method_check_uppercase (clock : Z) (dpopHeader method url : string)
    (key : jval) (p : DPoPPayload) :
  decodesTo dpopHeader p ->
  (Crypto.methodMismatch p method = false <->
     exists m, htm p = Some m /\ Js.toUpperCase m = m /\
               equalsIgnoreCase m method = true) /\
  (Crypto.methodMismatch p method = true ->
     Crypto.verifyDPoP clock dpopHeader method url key
     = Crypto.DPoPInvalid Crypto.MethodMismatch) /\
  (Crypto.methodMismatch p method = false ->
     Crypto.verifyDPoP clock dpopHeader method url key
     <> Crypto.DPoPInvalid Crypto.MethodMismatch).
Proof.
  intros Hdec. split; [|split].
  - rewrite methodMismatch_false. unfold equalsIgnoreCase. split.
    + intros Hm. exists (Js.toUpperCase method). split; [done|]. split.
      * apply toUpperCase_idem.
      * rewrite toLower_toUpper. apply String.eqb_refl.
    + intros (m & Hm & Hup & Heq). rewrite Hm. f_equal.
      apply String.eqb_eq in Heq.
      rewrite <- Hup, <- (toUpper_toLower m), Heq. apply toUpper_toLower.
  - intros Hmis. unfold Crypto.verifyDPoP.
    rewrite (verifyDPoP_at_method _ _ _ _ _ _ Hdec), Hmis. reflexivity.
  - intros Hok. unfold Crypto.verifyDPoP.
    rewrite (verifyDPoP_at_method _ _ _ _ _ _ Hdec), Hok. simpl.
    destruct (Crypto.urlMismatch p url); simpl; [done|].
    destruct (Crypto.timestampInvalid p (clock / 1000)); simpl; [done|].
    destruct (Js.truthyOpt (jti p)); simpl; [|done].
    destruct (jwtVerify dpopHeader key clock); simpl; done.
Qed.

(** The guard [!payload.iat || Math.abs(now - payload.iat) > 300] on a
    proof that decodes and whose other claims and signature are valid,
    with issuance time [t]: if [t] is more than 300 seconds away from the
    verification time, or is 0, the proof is rejected with the timestamp
    error; if [t] is not 0 and at most 300 seconds away, the proof is
    accepted. *)
Lemma timestamp_cases (clock : Z) (dpopHeader method url : string)
    (key : jval) (p : DPoPPayload) (t : Z) :
  decodesTo dpopHeader p ->
  Crypto.methodMismatch p method = false ->
  restValid clock dpopHeader url key p ->
  iat p = Some t ->
  let now := clock / 1000 in
  (300 < Z.abs (now - t) \/ t = 0 ->
     Crypto.verifyDPoP clock dpopHeader method url key
     = Crypto.DPoPInvalid Crypto.TimestampInvalid) /\
  (Z.abs (now - t) <= 300 -> t <> 0 ->
     Crypto.verifyDPoP clock dpopHeader method url key
     = Crypto.DPoPValid (Js.orEmpty (jti p)) t).
Proof.
  intros Hdec Hm (Hurl & Hjti & Hsig) Hiat now.
  unfold Crypto.verifyDPoP.
  rewrite (verifyDPoP_at_method _ _ _ _ _ _ Hdec), Hm, Hurl. simpl.
  unfold Crypto.timestampInvalid. rewrite Hiat. fold now. split.
  - intros Hfar.
    assert ((t =? 0) || (300 <? Z.abs (now - t)) = true) as ->; [|done].
    apply orb_true_iff. destruct Hfar as [Hfar| ->]; [right; lia | left; lia].
  - intros Hnear Hnz.
    assert ((t =? 0) || (300 <? Z.abs (now - t)) = false) as ->.
    { apply orb_false_iff. split; lia. }
    simpl. rewrite Hjti, Hsig. simpl. reflexivity.
Qed.

(** C3.  On a proof that decodes and whose other claims and signature are
    valid, with issuance time [t] and verification time
    [now = Math.floor(Date.now() / 1000)]: if [t] differs from [now] by
    strictly more than 300 seconds, in either direction, the proof is
    rejected with the timestamp error; if it differs by at most 300
    seconds, exactly 300 included, the proof is accepted, with its
    identifier and issuance time.  The acceptance is for a server clock
    that reads later than 00:05:00 UTC on 1 January 1970, as [Date.now()]
    does: every issuance time inside the window is then positive. *)
Theorem timestamp_window (clock : Z) (dpopHeader method url : string)
    (key : jval) (p : DPoPPayload) (t : Z) :
  decodesTo dpopHeader p ->
  Crypto.methodMismatch p method = false ->
  restValid clock dpopHeader url key p ->
  iat p = Some t ->
  let now := clock / 1000 in
  (300 < Z.abs (now - t) ->
     Crypto.verifyDPoP clock dpopHeader method url key
     = Crypto.DPoPInvalid Crypto.TimestampInvalid) /\
  (300 < now -> Z.abs (now - t) <= 300 ->
     Crypto.verifyDPoP clock dpopHeader method url key
     = Crypto.DPoPValid (Js.orEmpty (jti p)) t).
Proof.
  intros Hdec Hm Hrest Hiat now.
  destruct (timestamp_cases clock dpopHeader method url key p t
              Hdec Hm Hrest Hiat) as [Hfar Hnear].
  fold now in Hfar, Hnear. split.
  - intros Hgt. apply Hfar. by left.
  - intros Hclock Hle. apply Hnear; [exact Hle|lia].
Qed.

End ProofVerifier.


Lemma method_check_uppercase_witness :
  Crypto.verifyDPoP (H := Demo.runtime) 1700000000000 "hdr.lower.sig" "GET"
                    Demo.url Demo.jwk
  = Crypto.DPoPInvalid Crypto.MethodMismatch.
Proof.
  refine (proj1 (proj2 (method_check_uppercase (H := Demo.runtime)
            1700000000000 "hdr.lower.sig" "GET" Demo.url Demo.jwk
            {| htm := Some "get"; htu := Some Demo.url;
               iat := Some 1700000000; jti := Some "jti-2" |} _)) _).
  - split; [reflexivity|].
    exists "hdr", "lower", {| alg := Some "ES256"; typ := Some "dpop+jwt" |}.
    repeat split; reflexivity.
  - reflexivity.
Defined.

(** C4, as the claim has it, fails: a proof that claims the method [get]
    equals the request method [GET] up to case, and is rejected with the
    method-mismatch error. *)
Lemma method_check_not_case_insensitive :
  equalsIgnoreCase "get" "GET" = true /\
  Crypto.verifyDPoP (H := Demo.runtime) 1700000000000 "hdr.lower.sig" "GET"
                    Demo.url Demo.jwk
  = Crypto.DPoPInvalid Crypto.MethodMismatch.
Proof. split; reflexivity. Qed.

(** The request method is the side that is normalised: the same claims in
    upper case verify against the request method [get]. *)
Example method_check_normalises_request_method :
  Crypto.verifyDPoP (H := Demo.runtime) 1700000000000 "hdr.upper.sig" "get"
                    Demo.url Demo.jwk
  = Crypto.DPoPValid "jti-1" 1700000000.
Proof. reflexivity. Qed.

Lemma timestamp_window_witness :
  Crypto.verifyDPoP (H := Demo.runtime) 1700000300999 "hdr.upper.sig" "GET"
                    Demo.url Demo.jwk
  = Crypto.DPoPValid "jti-1" 1700000000.
Proof.
  refine (proj2 (timestamp_window (H := Demo.runtime)
            1700000300999 "hdr.upper.sig" "GET" Demo.url Demo.jwk
            {| htm := Some "GET"; htu := Some Demo.url;
               iat := Some 1700000000; jti := Some "jti-1" |}
            1700000000 _ _ _ _) _ _).
  - split; [reflexivity|].
    exists "hdr", "upper", {| alg := Some "ES256"; typ := Some "dpop+jwt" |}.
    repeat split; reflexivity.
  - reflexivity.
  - repeat split; reflexivity.
  - reflexivity.
  - reflexivity.
  - vm_compute. discriminate.
Defined.

(** Exactly 300 seconds after the issuance time the proof is accepted;
    one second past the boundary, in either direction, it is rejected. *)
Example timestamp_300_seconds_old :
  Z.abs (1700000300999 / 1000 - 1700000000) = 300 /\
  Crypto.verifyDPoP (H := Demo.runtime) 1700000300999 "hdr.upper.sig" "GET"
                    Demo.url Demo.jwk
  = Crypto.DPoPValid "jti-1" 1700000000.
Proof. split; reflexivity. Qed.

Example timestamp_301_seconds_old :
  Crypto.verifyDPoP (H := Demo.runtime) 1700000301000 "hdr.upper.sig" "GET"
                    Demo.url Demo.jwk
  = Crypto.DPoPInvalid Crypto.TimestampInvalid.
Proof. reflexivity. Qed.

Example timestamp_301_seconds_ahead :
  Crypto.verifyDPoP (H := Demo.runtime) 1699999699999 "hdr.upper.sig" "GET"
                    Demo.url Demo.jwk
  = Crypto.DPoPInvalid Crypto.TimestampInvalid.
Proof. reflexivity. Qed.

Example timestamp_300_seconds_ahead :
  Crypto.verifyDPoP (H := Demo.runtime) 1699999700000 "hdr.upper.sig" "GET"
                    Demo.url Demo.jwk
  = Crypto.DPoPValid "jti-1" 1700000000.
Proof. reflexivity. Qed.

(** The guard reads an issuance time of 0 as a missing claim: a proof
    issued at the epoch is rejected also by a clock that stands at 00:05:00
    UTC on 1 January 1970, the last reading at which 0 is inside the
    window. *)
Example issued_at_epoch_reads_as_missing :
  Z.abs (300000 / 1000 - 0) = 300 /\
  restValid (H := Demo.runtime) 300000 "hdr.epoch.sig" Demo.url Demo.jwk
            {| htm := Some "GET"; htu := Some Demo.url;
               iat := Some 0; jti := Some "jti-3" |} /\
  Crypto.verifyDPoP (H := Demo.runtime) 300000 "hdr.epoch.sig" "GET"
                    Demo.url Demo.jwk
  = Crypto.DPoPInvalid Crypto.TimestampInvalid.
Proof. repeat split; reflexivity. Qed.

(** ** Fingerprint similarity *)

Section FingerprintMatcher.
Context `{Runtime}.

Lemma extractBrowserInfo_truthy (ua : string) (info : Fingerprint.BrowserInfo) :
  Fingerprint.extractBrowserInfo ua = Some info -> Js.truthy ua = true.
Proof. destruct ua; [discriminate|reflexivity]. Qed.










End FingerprintMatcher.



(** ** The orchestrator: replay cache and fingerprint check *)

Section Orchestrator.
Context `{Runtime}.

(** The handler never answers with the replay error once the replay
    check has been passed. *)
Lemma afterReplayCheck_not_replay (w : Auth.World) (req : Request)
    (v : Auth.Verified) :
  Auth.finish (Auth.afterReplayCheck w req v) <> Auth.ReplayDetected.
Proof.
  unfold Auth.afterReplayCheck, Auth.fingerprintValidation, Auth.ipValidation,
    Auth.respondIf, Auth.ReplayDetected, Auth.AuthenticationFailed.
  repeat (match goal with
          | |- context [if ?b then _ else _] => destruct b
          end; simpl; try discriminate).
Qed.

(** A request whose proof verifies and whose jti is new. *)
Lemma authenticateToken_fresh (w : Auth.World) (req : Request)
    (v : Auth.Verified) (jtiCache : gset string) :
  Auth.verifyRequest w req = Ok v ->
  Auth.proofJti v ∉ jtiCache ->
  Auth.authenticateToken w req jtiCache
  = (Auth.finish (Auth.afterReplayCheck w req v), {[Auth.proofJti v]} ∪ jtiCache).
Proof.
  intros Hv Hfresh. unfold Auth.authenticateToken. rewrite Hv.
  by rewrite decide_False.
Qed.

(** A request whose proof verifies and whose jti is in the cache. *)
Lemma authenticateToken_replayed (w : Auth.World) (req : Request)
    (v : Auth.Verified) (jtiCache : gset string) :
  Auth.verifyRequest w req = Ok v ->
  Auth.proofJti v ∈ jtiCache ->
  Auth.authenticateToken w req jtiCache = (Auth.ReplayDetected, jtiCache).
Proof.
  intros Hv Hin. unfold Auth.authenticateToken. rewrite Hv.
  by rewrite decide_True.
Qed.

(** No request removes a jti from the cache. *)
Lemma authenticateToken_grows (w : Auth.World) (req : Request)
    (jtiCache : gset string) :
  jtiCache ⊆ snd (Auth.authenticateToken w req jtiCache).
Proof.
  unfold Auth.authenticateToken.
  destruct (Auth.verifyRequest w req) as [v|out]; simpl; [|done].
  destruct (decide (Auth.proofJti v ∈ jtiCache)); simpl; set_solver.
Qed.

Lemma run_arrivals_grow (es : list Auth.Event) (jtiCache : gset string) :
  forallb Auth.isArrival es = true -> jtiCache ⊆ Auth.run es jtiCache.
Proof.
  revert jtiCache. induction es as [|e es IH]; intros jtiCache Harr; simpl.
  - done.
  - simpl in Harr. apply andb_true_iff in Harr as [He Hes].
    destruct e as [w req|]; [|discriminate]. simpl.
    etrans; [apply (authenticateToken_grows w req)|]. by apply IH.
Qed.

(** C1.  Take any request whose proof verifies, with jti [j], at a moment
    when [j] is not in the cache.  The replay check lets it through (the
    answer is whatever the later stages decide, never the replay error)
    and [j] is recorded.  After any further requests and timer ticks, as
    long as [j] is still in the cache, every request whose proof verifies
    with the same [j] is answered with 401 "DPoP proof replay detected" and
    the cache is left as it is; and [j] is still in the cache after any
    number of requests, since only a timer tick removes entries. *)
Theorem replay_check (w1 : Auth.World) (r1 : Request) (v1 : Auth.Verified)
    (jtiCache : gset string) :
  Auth.verifyRequest w1 r1 = Ok v1 ->
  Auth.proofJti v1 ∉ jtiCache ->
  let j := Auth.proofJti v1 in
  let first := Auth.authenticateToken w1 r1 jtiCache in
  fst first = Auth.finish (Auth.afterReplayCheck w1 r1 v1) /\
  fst first <> Auth.ReplayDetected /\
  j ∈ snd first /\
  (forall es w2 r2 v2,
      Auth.verifyRequest w2 r2 = Ok v2 ->
      Auth.proofJti v2 = j ->
      j ∈ Auth.run es (snd first) ->
      Auth.authenticateToken w2 r2 (Auth.run es (snd first))
      = (Auth.ReplayDetected, Auth.run es (snd first))) /\
  (forall es, forallb Auth.isArrival es = true -> j ∈ Auth.run es (snd first)).
Proof.
  intros Hv Hfresh j first. unfold first.
  rewrite (authenticateToken_fresh _ _ _ _ Hv Hfresh). simpl.
  split; [done|]. split; [apply afterReplayCheck_not_replay|].
  split; [set_solver|]. split.
  - intros es w2 r2 v2 Hv2 Hj Hin.
    apply (authenticateToken_replayed _ _ _ _ Hv2). by rewrite Hj.
  - intros es Harr. apply (run_arrivals_grow es _ Harr). set_solver.
Qed.


(** The hash comparison behind the fingerprint check. *)
Lemma compareFingerprints_exact (storedHash current : string) (tol : Q) :
  Js.truthy storedHash = true ->
  Js.truthy current = true ->
  Security.compareFingerprints (Some storedHash) (JStr current) tol
  = bool_decide (JSON_parse current ≫= Fingerprint.generateFingerprintHash
                 = Some storedHash).
Proof.
  intros Hs Hc. unfold Security.compareFingerprints. simpl. rewrite Hs, Hc. simpl.
  destruct (JSON_parse current) as [data|]; simpl.
  - apply bool_decide_ext. split; congruence.
  - reflexivity.
Qed.

(** C2, as the code has it.  When a fingerprint hash is stored for the
    device and the request carries a fingerprint, the orchestrator hashes
    the parsed current fingerprint and compares the two hashes for
    equality.  The threshold passed along (default 0.7) has no influence:
    the comparison gives the same answer for every threshold.  A mismatch
    is the production rejection or the [fingerprintMismatch] flag. *)
Theorem fingerprint_check_is_hash_equality (w : Auth.World) (req : Request)
    (v : Auth.Verified) (storedHash current : string) :
  Auth.fingerprint_hash (Auth.deviceKey v) = Some storedHash ->
  Js.truthy storedHash = true ->
  header req "x-fingerprint" = Some current ->
  Js.truthy current = true ->
  let sameHash :=
    bool_decide (JSON_parse current ≫= Fingerprint.generateFingerprintHash
                 = Some storedHash) in
  (forall tol,
      Security.compareFingerprints (Some storedHash) (JStr current) tol = sameHash) /\
  Auth.fingerprintValidation w req v
  = if sameHash then Ok false
    else if bool_decide (Auth.NODE_ENV w = Some "production")
         then Err (Auth.Respond 401 "Device verification failed")
         else Ok true.
Proof.
  intros Hstored Hs Hcur Hc sameHash. split.
  - intros tol. by apply compareFingerprints_exact.
  - unfold Auth.fingerprintValidation. rewrite Hstored, Hcur. simpl.
    rewrite Hs, Hc. simpl. rewrite (compareFingerprints_exact _ _ _ Hs Hc).
    fold sameHash. by destruct sameHash.
Qed.

End Orchestrator.

Lemma replay_check_witness :
  let w := Demo.world None None 1700000000000 in
  let r := Demo.request "hdr.upper.sig" None in
  let first := Auth.authenticateToken (H := Demo.runtime) w r ∅ in
  fst first = Auth.Next Demo.alice false false /\
  "jti-1" ∈ snd first /\
  Auth.authenticateToken (H := Demo.runtime) w r (snd first)
  = (Auth.ReplayDetected, snd first).
Proof.
  intros w r first.
  destruct (replay_check (H := Demo.runtime) w r (Demo.verified "jti-1") ∅)
    as (Hout & _ & Hin & Hreplay & _).
  - vm_compute. reflexivity.
  - apply not_elem_of_empty.
  - split; [|split].
    + fold first in Hout. rewrite Hout. vm_compute. reflexivity.
    + exact Hin.
    + apply (Hreplay [] w r (Demo.verified "jti-1")).
      * vm_compute. reflexivity.
      * reflexivity.
      * exact Hin.
Defined.

(** A replayed proof is rejected although everything else about the second
    request is in order; a proof with another jti is accepted. *)
Example replay_then_fresh :
  let w := Demo.world None None 1700000000000 in
  let c1 := snd (Auth.authenticateToken (H := Demo.runtime) w
                   (Demo.request "hdr.upper.sig" None) ∅) in
  fst (Auth.authenticateToken (H := Demo.runtime) w
         (Demo.request "hdr.upper.sig" None) c1) = Auth.ReplayDetected /\
  Auth.verifyRequest (H := Demo.runtime) w (Demo.request "hdr.upper.sig" None)
  = Ok (Demo.verified "jti-1").
Proof. split; vm_compute; reflexivity. Qed.


Lemma fingerprint_check_is_hash_equality_witness :
  Auth.fingerprintValidation (H := Demo.runtime)
    (Demo.world None (Some "0.9") 1700000000000)
    (Demo.request "hdr.upper.sig" (Some Demo.fpStored))
    (Demo.verified "jti-1")
  = Ok false.
Proof.
  assert (Hstored : Auth.fingerprint_hash (Auth.deviceKey (Demo.verified "jti-1"))
                    = Some "3fee7f69") by (vm_compute; reflexivity).
  assert (Hcurrent : header (Demo.request "hdr.upper.sig" (Some Demo.fpStored))
                            "x-fingerprint"
                     = Some (stringify None Demo.fpStored))
    by (vm_compute; reflexivity).
  rewrite (proj2 (fingerprint_check_is_hash_equality (H := Demo.runtime)
                    (Demo.world None (Some "0.9") 1700000000000)
                    (Demo.request "hdr.upper.sig" (Some Demo.fpStored))
                    (Demo.verified "jti-1")
                    "3fee7f69" (stringify None Demo.fpStored)
                    Hstored eq_refl Hcurrent eq_refl)).
  vm_compute. reflexivity.
Defined.

(** C2, as the claim has it, fails: the current fingerprint differs from
    the stored one in the platform only, the weighted similarity of the two
    is 0.95, which is not below the threshold 0.7 in force, and the
    orchestrator reports a fingerprint mismatch; in production the request
    is rejected. *)
Lemma fingerprint_mismatch_above_threshold :
  let w := Demo.world None None 1700000000000 in
  let r := Demo.request "hdr.upper.sig" (Some Demo.fpOtherPlatform) in
  Fingerprint.generateFingerprintHash Demo.fpStored
  = Auth.fingerprint_hash Demo.deviceKey /\
  (Fingerprint.compareFingerprintSimilarity (H := Demo.runtime)
     Demo.fpStored Demo.fpOtherPlatform == 95 # 100)%Q /\
  Auth.tolerance w = (7 # 10)%Q /\
  ~ (95 # 100 < Auth.tolerance w)%Q /\
  Auth.fingerprintValidation (H := Demo.runtime) w r (Demo.verified "jti-1")
  = Ok true /\
  fst (Auth.authenticateToken (H := Demo.runtime) w r ∅)
  = Auth.Next Demo.alice true false /\
  fst (Auth.authenticateToken (H := Demo.runtime)
         (Demo.world (Some "production") None 1700000000000) r ∅)
  = Auth.Respond 401 "Device verification failed".
Proof.
  intros w r. repeat split; try (vm_compute; reflexivity).
  intros Hlt. vm_compute in Hlt. discriminate.
Qed.

(** ** The request classifier *)

Section Classifier.
Context `{Runtime}.

Import AntiScraping.

(** The guard of the early [return next()]. *)
Definition bypassed (req : Request) : bool :=
  Js.startsWith (path req) "/api/" && Js.truthyOpt (header req "authorization").

Definition handle (st : State) (h : Hit) : Outcome * State :=
  middleware (hitTime h) (hitTime' h) (hitRequest h) st.

Definition serve (hits : list Hit) (st : State) : State :=
  fold_left (fun st h => snd (handle st h)) hits st.


(** Every stored suspicion score is between 0 and 100. *)
Definition scoresBounded (st : State) : Prop :=
  forall clientId pattern,
    st !! clientId = Some pattern -> 0 <= suspicionScore pattern <= 100.

(** C10.  A request whose path starts with [/api/] and that carries a
    non-empty Authorization header is passed on at once: the answer is
    [next()] without the security headers, and the map of request
    patterns is exactly what it was, whatever the bot detection, the
    frequency check or the header validation would have said. *)
Theorem authenticated_api_bypass (now now' : Z) (req : Request) (st : State) :
  Js.startsWith (path req) "/api/" = true ->
  Js.truthyOpt (header req "authorization") = true ->
  middleware now now' req st = (PassThrough false, st).
Proof.
  intros Hpath Hauth. unfold middleware. by rewrite Hpath, Hauth.
Qed.

(** Any other request is recorded under its client identity. *)
Lemma analysed_when_not_bypassed (now now' : Z) (req : Request) (st : State) :
  bypassed req = false ->
  exists pattern,
    snd (middleware now now' req st) !! getClientId req = Some pattern /\
    path req ∈ paths pattern.
Proof.
  intros Hby. unfold bypassed in Hby. unfold middleware. rewrite Hby.
  set (st1 := analyzeRequestPattern now req (getClientId req) st).
  assert (Hst1 : exists pattern, st1 !! getClientId req = Some pattern /\
                                 path req ∈ paths pattern).
  { unfold st1, analyzeRequestPattern. rewrite lookup_insert_eq.
    eexists. split; [reflexivity|]. simpl. unfold setAdd.
    case_decide; [done|]. apply elem_of_app. right. apply list_elem_of_here. }
  destruct Hst1 as (p & Hp & Hin).
  assert (Hpen : exists pattern,
             handleSuspiciousActivity req st1 !! getClientId req = Some pattern /\
             path req ∈ paths pattern).
  { unfold handleSuspiciousActivity. rewrite Hp, lookup_insert_eq.
    eexists. split; [reflexivity|]. done. }
  destruct (detectBot req st1); [by exists p|].
  destruct (isRequestTooFrequent now' (getClientId req) st1); [done|].
  destruct (validateBrowserHeaders req); simpl; [by exists p|done].
Qed.


Lemma frequencyScore_range (n : Z) : 0 <= frequencyScore n <= 30.
Proof. unfold frequencyScore. repeat case_match; lia. Qed.

Lemma intervalScore_range (reqs : list Entry) : 0 <= intervalScore reqs <= 25.
Proof. unfold intervalScore. repeat case_match; lia. Qed.

Lemma diversityScore_range (u n : Z) : 0 <= diversityScore u n <= 35.
Proof. unfold diversityScore. repeat case_match; lia. Qed.

(** The computed score is capped. *)
Lemma calculateSuspicionScore_range (pattern : Pattern) :
  0 <= calculateSuspicionScore pattern <= 100.
Proof.
  unfold calculateSuspicionScore.
  pose proof (frequencyScore_range (sizeOf (requests pattern))).
  pose proof (intervalScore_range (requests pattern)).
  pose proof (diversityScore_range (sizeOf (paths pattern))
                                   (sizeOf (requests pattern))).
  repeat case_match; lia.
Qed.

(** When the bot test lets a request through, the client's stored score
    is at most 70. *)
Lemma detectBot_false_score (req : Request) (st : State) (pattern : Pattern) :
  detectBot req st = false ->
  st !! getClientId req = Some pattern ->
  suspicionScore pattern <= 70.
Proof.
  unfold detectBot. intros Hbot Hp. rewrite Hp in Hbot.
  repeat match type of Hbot with
         | (if ?b then _ else _) = false => destruct b eqn:?; [discriminate|]
         end.
  match goal with E : (70 <? _) = false |- _ => apply Z.ltb_ge in E; exact E end.
Qed.

Lemma analyzeRequestPattern_bounded (now : Z) (req : Request)
    (clientId : string) (st : State) :
  scoresBounded st -> scoresBounded (analyzeRequestPattern now req clientId st).
Proof.
  intros Hst cid p. unfold analyzeRequestPattern.
  destruct (decide (clientId = cid)) as [->|Hne].
  - rewrite lookup_insert_eq. intros [= <-]. simpl.
    apply calculateSuspicionScore_range.
  - rewrite lookup_insert_ne by done. apply Hst.
Qed.

(** The penalty keeps the bound when it is applied to a score that passed
    the bot test. *)
Lemma handleSuspiciousActivity_bounded (req : Request) (st : State) :
  scoresBounded st ->
  detectBot req st = false ->
  scoresBounded (handleSuspiciousActivity req st).
Proof.
  intros Hst Hbot cid p. unfold handleSuspiciousActivity.
  destruct (st !! getClientId req) as [p0|] eqn:Hp0; [|apply Hst].
  destruct (decide (getClientId req = cid)) as [<-|Hne].
  - rewrite lookup_insert_eq. intros [= <-]. simpl.
    pose proof (Hst _ _ Hp0). pose proof (detectBot_false_score _ _ _ Hbot Hp0). lia.
  - rewrite lookup_insert_ne by done. apply Hst.
Qed.

Lemma middleware_bounded (now now' : Z) (req : Request) (st : State) :
  scoresBounded st -> scoresBounded (snd (middleware now now' req st)).
Proof.
  intros Hst. unfold middleware.
  destruct (Js.startsWith (path req) "/api/" &&
            Js.truthyOpt (header req "authorization")); [done|].
  pose proof (analyzeRequestPattern_bounded now req (getClientId req) st Hst) as Hst1.
  destruct (detectBot req _) eqn:Hbot; [done|].
  destruct (isRequestTooFrequent now' _ _);
    [by apply handleSuspiciousActivity_bounded|].
  destruct (validateBrowserHeaders req); simpl;
    [done|by apply handleSuspiciousActivity_bounded].
Qed.

Lemma cleanup_bounded (now : Z) (st : State) :
  scoresBounded st -> scoresBounded (cleanup now st).
Proof.
  intros Hst cid p. unfold cleanup. rewrite lookup_omap.
  destruct (st !! cid) as [p0|] eqn:Hp0; simpl; [|discriminate].
  case_match; [discriminate|]. intros [= <-]. simpl. by apply (Hst cid).
Qed.

(** C6.  In every state the singleton can reach from its initial empty
    map, by handling requests and by the periodic clean-up, every client's
    stored suspicion score lies between 0 and 100; this includes the
    states left by the 20-point penalty, which is only ever applied to a
    score that the bot test has just found to be at most 70. *)
Theorem stored_score_in_range (st : State) :
  reachable st ->
  forall clientId pattern,
    st !! clientId = Some pattern -> 0 <= suspicionScore pattern <= 100.
Proof.
  induction 1 as [|st e Hreach IH].
  - intros cid p Hp. by rewrite lookup_empty in Hp.
  - destruct e as [now now' req|now]; simpl.
    + by apply middleware_bounded.
    + by apply cleanup_bounded.
Qed.

(** *** A crawl of sixty pages *)

Definition emptyPattern : Pattern :=
  {| requests := []; paths := []; userAgents := []; suspicionScore := 0 |}.


Definition pathOf (h : Hit) : string := path (hitRequest h).







Lemma setAdd_elem {A} `{EqDecision A} (x y : A) (s : list A) :
  y ∈ setAdd x s <-> y = x \/ y ∈ s.
Proof.
  unfold setAdd. case_decide.
  - split; [auto|]. intros [->|]; done.
  - rewrite elem_of_app, list_elem_of_singleton. tauto.
Qed.




















End Classifier.

Lemma authenticated_api_bypass_witness :
  AntiScraping.detectBot (H := Demo.runtime) Demo.curlApiRequest ∅ = true /\
  AntiScraping.middleware (H := Demo.runtime) 1700000000000 1700000000001
                          Demo.curlApiRequest ∅
  = (AntiScraping.PassThrough false, ∅).
Proof.
  split; [vm_compute; reflexivity|].
  apply (authenticated_api_bypass (H := Demo.runtime)); reflexivity.
Defined.

(** Without the Authorization header the same request is recorded and
    answered with the bot-detected response. *)
Example unauthenticated_api_request :
  let req := {| method := "GET"; path := "/api/posts"; originalUrl := "/api/posts";
                secure := true;
                headers := list_to_map [("user-agent", "curl/8.4.0");
                                        ("accept", "*/*")];
                remoteAddress := Some "198.51.100.99";
                ip := Some "198.51.100.99";
                securityContextIp := Some "198.51.100.99" |} in
  fst (AntiScraping.middleware (H := Demo.runtime) 0 0 req ∅)
  = AntiScraping.BotDetected /\
  snd (AntiScraping.middleware (H := Demo.runtime) 0 0 req ∅) <> ∅.
Proof.
  split; [vm_compute; reflexivity|].
  intros Heq. apply (f_equal (fun m : gmap string AntiScraping.Pattern =>
                                bool_decide (m = ∅))) in Heq.
  vm_compute in Heq. discriminate.
Qed.

Lemma stored_score_in_range_witness :
  let st := AntiScraping.step (H := Demo.runtime) ∅
              (AntiScraping.Handles 1700000000000 1700000000001
                 (Demo.pageRequest "deflate" "/pricing")) in
  exists pattern,
    st !! "Mozilla/5.0 (Win" = Some pattern /\
    AntiScraping.suspicionScore pattern = 20 /\
    0 <= AntiScraping.suspicionScore pattern <= 100.
Proof.
  intros st. eexists. split; [vm_compute; reflexivity|].
  split; [reflexivity|].
  apply (stored_score_in_range (H := Demo.runtime) st
           (AntiScraping.reachable_step _ _ AntiScraping.reachable_init)
           "Mozilla/5.0 (Win").
  vm_compute. reflexivity.
Defined.



(** The same sixty requests from a client that is not tracked yet: the
    window is the crawl itself and the score is exactly 30 + 25 + 20. *)
Example crawl_score :
  AntiScraping.suspicionScore
    (default emptyPattern
       (serve (H := Demo.runtime) Demo.crawl ∅ !! "Mozilla/5.0 (Win")) = 75.
Proof. vm_compute. reflexivity. Qed.

(** ** Further properties of proof verification *)

Section ProofVerifierSound.
Context `{Runtime}.

Lemma throwIf_Ok (b : bool) (e : Crypto.DPoPError) {A}
    (k : result Crypto.DPoPError A) (a : A) :
  (Crypto.throwIf b e ;; k) = Ok a -> b = false /\ k = Ok a.
Proof. destruct b; simpl; [discriminate|done]. Qed.

Lemma orThrow_Ok {A B} (o : option A) (e : Crypto.DPoPError)
    (k : A -> result Crypto.DPoPError B) (b : B) :
  (x ← Crypto.orThrow o e; k x) = Ok b -> exists a, o = Some a /\ k a = Ok b.
Proof. destruct o as [a|]; simpl; [eauto|discriminate]. Qed.

Lemma splitProof_Ok (dpopHeader headerB64 payloadB64 : string) :
  Crypto.splitProof dpopHeader = Ok (headerB64, payloadB64) <->
  exists signatureB64 rest,
    Js.split "." dpopHeader = headerB64 :: payloadB64 :: signatureB64 :: rest /\
    headerB64 <> "" /\ payloadB64 <> "" /\ signatureB64 <> "".
Proof.
  assert (Htruthy : forall s, Js.truthy s = true <-> s <> "").
  { intros s. unfold Js.truthy. rewrite negb_true_iff.
    destruct (String.eqb_spec s ""); split; congruence. }
  unfold Crypto.splitProof. split.
  - destruct (Js.split "." dpopHeader) as [|h [|p [|sg rest]]]; try discriminate.
    destruct (Js.truthy h) eqn:Hh; [|discriminate].
    destruct (Js.truthy p) eqn:Hp; [|discriminate].
    destruct (Js.truthy sg) eqn:Hs; [|discriminate].
    simpl. intros [= <- <-]. exists sg, rest.
    rewrite <- !Htruthy. done.
  - intros (sg & rest & -> & Hh & Hp & Hs).
    apply Htruthy in Hh, Hp, Hs. by rewrite Hh, Hp, Hs.
Qed.

(** X1.  What a successful verification guarantees, and all it takes: the proof
    has at least three non-empty dot-separated segments; the first decodes
    to a header with algorithm ES256 and type dpop+jwt; the second decodes
    to claims whose method is the request method in upper case, whose URL is
    exactly the request URL, whose issuance time is non-zero and within 300
    seconds of the clock, and whose jti is a non-empty string; and the
    signature verifies under the given key.  The result then carries that
    jti and issuance time. *)
Theorem verifyDPoP_valid_iff (clock : Z) (dpopHeader method url : string)
    (key : jval) (j : string) (t : Z) :
  Crypto.verifyDPoP clock dpopHeader method url key = Crypto.DPoPValid j t <->
  exists headerB64 payloadB64 signatureB64 rest hdr p,
    Js.split "." dpopHeader = headerB64 :: payloadB64 :: signatureB64 :: rest /\
    headerB64 <> "" /\ payloadB64 <> "" /\ signatureB64 <> "" /\
    decodeHeader headerB64 = Some hdr /\
    alg hdr = Some "ES256" /\ typ hdr = Some "dpop+jwt" /\
    decodePayload payloadB64 = Some p /\
    htm p = Some (Js.toUpperCase method) /\
    htu p = Some url /\
    iat p = Some t /\ t <> 0 /\ Z.abs (clock / 1000 - t) <= 300 /\
    jti p = Some j /\ j <> "" /\
    jwtVerify dpopHeader key clock = true.
Proof.
  unfold Crypto.verifyDPoP. split.
  - destruct (Crypto.verifyDPoPSteps _ _ _ _ _) as [[j' t']|e] eqn:Hsteps;
      [|discriminate].
    intros [= -> ->]. unfold Crypto.verifyDPoPSteps in Hsteps.
    apply throwIf_Ok in Hsteps as [_ Hsteps].
    destruct (Crypto.splitProof dpopHeader) as [[h pl]|e] eqn:Hsplit;
      [|discriminate].
    simpl in Hsteps.
    apply orThrow_Ok in Hsteps as (hdr & Hh & Hsteps).
    apply orThrow_Ok in Hsteps as (p & Hp & Hsteps).
    apply throwIf_Ok in Hsteps as [Hhdr Hsteps].
    apply throwIf_Ok in Hsteps as [Hm Hsteps].
    apply throwIf_Ok in Hsteps as [Hu Hsteps].
    apply throwIf_Ok in Hsteps as [Ht Hsteps].
    apply throwIf_Ok in Hsteps as [Hj Hsteps].
    apply throwIf_Ok in Hsteps as [Hs Hret].
    injection Hret as Hj' Ht'.
    apply splitProof_Ok in Hsplit as (sg & rest & Hsplit & Hne1 & Hne2 & Hne3).
    apply orb_false_iff in Hhdr as [Halg Htyp].
    apply negb_false_iff, bool_decide_eq_true in Halg, Htyp.
    apply methodMismatch_false in Hm.
    unfold Crypto.urlMismatch in Hu.
    apply negb_false_iff, bool_decide_eq_true in Hu.
    unfold Crypto.timestampInvalid in Ht.
    destruct (iat p) as [t0|] eqn:Hiat; [|discriminate].
    apply orb_false_iff in Ht as [Hnz Hwin]. simpl in Ht'. subst t0.
    apply negb_false_iff in Hj, Hs.
    destruct (jti p) as [j0|] eqn:Hjti; [|discriminate].
    simpl in Hj, Hj'. subst j0.
    exists h, pl, sg, rest, hdr, p. repeat split; try done; try lia.
    intros ->. discriminate.
  - intros (h & pl & sg & rest & hdr & p & Hsplit & Hne1 & Hne2 & Hne3 & Hh &
            Halg & Htyp & Hp & Hm & Hu & Hiat & Hnz & Hwin & Hjti & Hj & Hs).
    assert (Hdec : decodesTo dpopHeader p).
    { split.
      - destruct dpopHeader; [|done]. simpl in Hsplit. congruence.
      - exists h, pl, hdr. repeat split; try done.
        apply splitProof_Ok. eauto 10. }
    rewrite (verifyDPoP_at_method _ _ _ _ _ _ Hdec).
    apply methodMismatch_false in Hm. rewrite Hm. simpl.
    unfold Crypto.urlMismatch. rewrite Hu, bool_decide_eq_true_2 by done. simpl.
    unfold Crypto.timestampInvalid. rewrite Hiat.
    assert ((t =? 0) || (300 <? Z.abs (clock / 1000 - t)) = false) as ->
      by (apply orb_false_iff; split; lia).
    simpl. rewrite Hjti. simpl.
    assert (Js.truthy j = true) as ->.
    { unfold Js.truthy. apply negb_true_iff.
      by destruct (String.eqb_spec j ""). }
    simpl. rewrite Hs. reflexivity.
Qed.

(** X2.  A proof with fewer than two dots is rejected before anything is
    decoded: with the missing-header error when it is empty, with the
    format error otherwise. *)
Theorem verifyDPoP_too_few_segments (clock : Z) (dpopHeader method url : string)
    (key : jval) :
  (length (Js.split "." dpopHeader) < 3)%nat ->
  Crypto.verifyDPoP clock dpopHeader method url key
  = Crypto.DPoPInvalid (if Js.truthy dpopHeader then Crypto.InvalidDPoPFormat
                        else Crypto.MissingDPoPHeader).
Proof.
  intros Hlen. unfold Crypto.verifyDPoP, Crypto.verifyDPoPSteps.
  destruct (Js.truthy dpopHeader); [|reflexivity]. simpl.
  unfold Crypto.splitProof.
  destruct (Js.split "." dpopHeader) as [|h [|p [|sg rest]]]; try reflexivity.
  simpl in Hlen. lia.
Qed.

End ProofVerifierSound.

Lemma verifyDPoP_too_few_segments_witness :
  Crypto.verifyDPoP (H := Demo.runtime) 1700000000000 "hdr.upper" "GET"
                    Demo.url Demo.jwk
  = Crypto.DPoPInvalid Crypto.InvalidDPoPFormat.
Proof.
  apply (verifyDPoP_too_few_segments (H := Demo.runtime)). vm_compute. lia.
Defined.

(** ** Further properties of the orchestrator *)

Section OrchestratorSound.
Context `{Runtime}.

Lemma respondIf_Ok (b : bool) (out : Auth.Outcome) {A}
    (k : result Auth.Outcome A) (a : A) :
  (Auth.respondIf b out ;; k) = Ok a -> b = false /\ k = Ok a.
Proof. destruct b; simpl; [discriminate|done]. Qed.

Lemma orRespond_Ok {A B} (o : option A) (out : Auth.Outcome)
    (k : A -> result Auth.Outcome B) (b : B) :
  (Auth.orRespond o out ≫= k) = Ok b -> exists a, o = Some a /\ k a = Ok b.
Proof. destruct o as [a|]; simpl; [eauto|discriminate]. Qed.

Definition responds (out : Auth.Outcome) : Prop :=
  match out with Auth.Respond _ _ => True | Auth.Next _ _ _ => False end.

Lemma respondIf_Err (b : bool) (out : Auth.Outcome) {A}
    (k : result Auth.Outcome A) (e : Auth.Outcome) :
  responds out -> (k = Err e -> responds e) ->
  (Auth.respondIf b out ;; k) = Err e -> responds e.
Proof. destruct b; simpl; [by intros ? _ [= <-]|auto]. Qed.

Lemma orRespond_Err {A B} (o : option A) (out : Auth.Outcome)
    (k : A -> result Auth.Outcome B) (e : Auth.Outcome) :
  responds out -> (forall a, k a = Err e -> responds e) ->
  (Auth.orRespond o out ≫= k) = Err e -> responds e.
Proof. destruct o as [a|]; simpl; [eauto|by intros ? _ [= <-]]. Qed.

(** Every early exit of the handler is a response. *)
Lemma verifyRequest_Err (w : Auth.World) (req : Request) (out : Auth.Outcome) :
  Auth.verifyRequest w req = Err out -> responds out.
Proof.
  unfold Auth.verifyRequest.
  repeat first [ apply respondIf_Err; [exact I|]
               | apply orRespond_Err; [exact I|intros ?] ].
  case_match; [discriminate|]. by intros [= <-].
Qed.

Lemma afterReplayCheck_Err (w : Auth.World) (req : Request) (v : Auth.Verified)
    (out : Auth.Outcome) :
  Auth.afterReplayCheck w req v = Err out -> responds out.
Proof.
  unfold Auth.afterReplayCheck, Auth.fingerprintValidation, Auth.ipValidation,
    Auth.respondIf.
  repeat (case_match; simpl); intros; simplify_eq; exact I.
Qed.

Lemma afterReplayCheck_Ok (w : Auth.World) (req : Request) (v : Auth.Verified)
    (out : Auth.Outcome) :
  Auth.afterReplayCheck w req v = Ok out ->
  Auth.updateLastUsed w = true /\
  exists mismatch ipChanged,
    out = Auth.Next {| Auth.id := Auth.userId v;
                       Auth.user_username := Auth.username (Auth.deviceKey v);
                       Auth.user_email := Auth.email (Auth.deviceKey v);
                       Auth.deviceKeyId := Auth.keyId v |} mismatch ipChanged.
Proof.
  unfold Auth.afterReplayCheck.
  destruct (Auth.fingerprintValidation w req v) as [fm|]; simpl; [|discriminate].
  destruct (Auth.ipValidation w req v) as [ic|]; simpl; [|discriminate].
  destruct (Auth.updateLastUsed w); simpl; [|discriminate].
  intros [= <-]. eauto.
Qed.

(** Everything that has been established about a request when the handler
    reaches the replay check. *)
Definition bound (w : Auth.World) (req : Request) (v : Auth.Verified) : Prop :=
  exists authHeader dpopHeader payload publicKeyJwk t,
    header req "authorization" = Some authHeader /\
    Js.startsWith authHeader "Bearer " = true /\
    header req "dpop" = Some dpopHeader /\
    Auth.verifyAccessToken w
      (String.substring 7 (String.length authHeader) authHeader) = Some payload /\
    Auth.userId v = Auth.parseInt (Auth.sub payload) /\
    Auth.device_key_id payload = Some (Auth.keyId v) /\
    Auth.keyId v <> 0 /\
    Auth.getDeviceKey w (Auth.keyId v) (Auth.userId v)
    = Some (Some (Auth.deviceKey v)) /\
    JSON_parse (Auth.public_key_jwk (Auth.deviceKey v)) = Some publicKeyJwk /\
    Crypto.generateKeyThumbprint publicKeyJwk = Auth.cnf_jkt payload /\
    Crypto.verifyDPoP (Auth.clock w) dpopHeader (method req) (Auth.fullUrl req)
                      publicKeyJwk
    = Crypto.DPoPValid (Auth.proofJti v) t.

Lemma verifyRequest_bound (w : Auth.World) (req : Request) (v : Auth.Verified) :
  Auth.verifyRequest w req = Ok v -> bound w req v.
Proof.
  unfold Auth.verifyRequest. intros Hv.
  apply respondIf_Ok in Hv as [Hauth Hv].
  apply respondIf_Ok in Hv as [Hdpop Hv].
  apply orRespond_Ok in Hv as (payload & Htoken & Hv).
  apply respondIf_Ok in Hv as [Hbinding Hv].
  apply orRespond_Ok in Hv as (found & Hget & Hv).
  apply orRespond_Ok in Hv as (dk & -> & Hv).
  apply orRespond_Ok in Hv as (jwk & Hparse & Hv).
  apply orRespond_Ok in Hv as (thumb & Hthumb & Hv).
  apply respondIf_Ok in Hv as [Heq Hv].
  destruct (Crypto.verifyDPoP _ _ _ _ _) as [jti t|e] eqn:Hproof; [|discriminate].
  injection Hv as <-. simpl.
  apply orb_false_iff in Hauth as [Hauth Hbearer].
  apply negb_false_iff in Hauth, Hbearer, Hdpop.
  destruct (header req "authorization") as [authHeader|] eqn:Ha; [|discriminate].
  destruct (header req "dpop") as [dpopHeader|] eqn:Hd; [|discriminate].
  apply orb_false_iff in Hbinding as [Hjkt Hkid].
  apply negb_false_iff in Hjkt, Hkid.
  destruct (Auth.device_key_id payload) as [kid|] eqn:Hk; [|discriminate].
  simpl in Hkid. apply negb_true_iff, Z.eqb_neq in Hkid.
  apply negb_false_iff, bool_decide_eq_true in Heq.
  exists authHeader, dpopHeader, payload, jwk, t. simpl in *.
  repeat split; try done. congruence.
Qed.

(** X3.  A request is let through only when its bearer token verifies, the
    token names a device key that the store returns, the thumbprint of the
    stored public key equals the token's [cnf.jkt], the DPoP proof verifies
    under that key for the request's method and full URL, and the proof's
    jti was not in the cache; the jti is in the cache afterwards and the
    user attached to the request is the one of the token. *)
Theorem accepted_only_if_bound (w : Auth.World) (req : Request)
    (jtiCache : gset string) (user : Auth.User) (mismatch ipChanged : bool) :
  fst (Auth.authenticateToken w req jtiCache) = Auth.Next user mismatch ipChanged ->
  exists v,
    Auth.verifyRequest w req = Ok v /\
    bound w req v /\
    (Auth.proofJti v ∉ jtiCache) /\
    snd (Auth.authenticateToken w req jtiCache) = ({[Auth.proofJti v]} ∪ jtiCache) /\
    Auth.id user = Auth.userId v /\
    Auth.deviceKeyId user = Auth.keyId v /\
    Auth.updateLastUsed w = true.
Proof.
  unfold Auth.authenticateToken.
  destruct (Auth.verifyRequest w req) as [v|out] eqn:Hv; simpl.
  - destruct (decide (Auth.proofJti v ∈ jtiCache)) as [Hin|Hfresh]; simpl;
      [discriminate|].
    intros Hnext. exists v. split; [done|]. split; [by apply verifyRequest_bound|].
    split; [done|]. split; [done|].
    destruct (Auth.afterReplayCheck w req v) as [out|out] eqn:Hafter;
      simpl in Hnext; subst out.
    + apply afterReplayCheck_Ok in Hafter as (Hused & fm & ic & [= -> _ _]).
      done.
    + by apply afterReplayCheck_Err in Hafter.
  - intros ->. by apply verifyRequest_Err in Hv.
Qed.

(** X4.  The cache is changed by a request in one way only: the jti of a
    verified proof that was not yet recorded is added.  Every response sent
    before the replay check, and the replay rejection itself, leave it as it
    is. *)
Theorem cache_changes_only_by_fresh_jti (w : Auth.World) (req : Request)
    (jtiCache : gset string) :
  match Auth.verifyRequest w req with
  | Ok v =>
      snd (Auth.authenticateToken w req jtiCache) = {[Auth.proofJti v]} ∪ jtiCache
  | Err out =>
      Auth.authenticateToken w req jtiCache = (out, jtiCache) /\ responds out
  end.
Proof.
  unfold Auth.authenticateToken.
  destruct (Auth.verifyRequest w req) as [v|out] eqn:Hv.
  - destruct (decide (Auth.proofJti v ∈ jtiCache)); simpl; set_solver.
  - split; [done|]. by apply verifyRequest_Err in Hv.
Qed.

(** X5.  The periodic reset.  A tick leaves a cache of at most 10000 entries as
    it is and empties a larger one; so the cache holds at most 10000
    entries after every tick, and after a reset a request whose proof
    verifies passes the replay check again although its jti had been
    recorded and rejected before. *)
Theorem tick_resets_large_cache (jtiCache : gset string) :
  Z.of_nat (size (Auth.cleanJtiCache jtiCache)) <= Auth.JTI_CACHE_SIZE /\
  (Z.of_nat (size jtiCache) <= Auth.JTI_CACHE_SIZE ->
   Auth.cleanJtiCache jtiCache = jtiCache) /\
  (Auth.JTI_CACHE_SIZE < Z.of_nat (size jtiCache) ->
   forall w req v,
     Auth.verifyRequest w req = Ok v ->
     Auth.proofJti v ∈ jtiCache ->
     Auth.authenticateToken w req jtiCache = (Auth.ReplayDetected, jtiCache) /\
     Auth.authenticateToken w req (Auth.step jtiCache Auth.Tick)
     = (Auth.finish (Auth.afterReplayCheck w req v), {[Auth.proofJti v]})).
Proof.
  unfold Auth.cleanJtiCache, Auth.JTI_CACHE_SIZE. split; [|split].
  - case_decide; [rewrite size_empty|]; lia.
  - intros Hsmall. by rewrite decide_False by lia.
  - intros Hlarge w req v Hv Hin. split.
    + by apply (authenticateToken_replayed w req v).
    + simpl. unfold Auth.cleanJtiCache, Auth.JTI_CACHE_SIZE.
      rewrite decide_True by lia.
      rewrite (authenticateToken_fresh w req v ∅ Hv) by set_solver.
      f_equal. set_solver.
Qed.

(** X6.  Between ticks nothing bounds the cache: a request with a new jti is
    recorded however many entries there are. *)
Theorem cache_grows_without_bound (w : Auth.World) (req : Request)
    (v : Auth.Verified) (jtiCache : gset string) :
  Auth.verifyRequest w req = Ok v ->
  Auth.proofJti v ∉ jtiCache ->
  size (snd (Auth.authenticateToken w req jtiCache)) = S (size jtiCache).
Proof.
  intros Hv Hfresh. rewrite (authenticateToken_fresh w req v _ Hv Hfresh). simpl.
  rewrite size_union by set_solver. by rewrite size_singleton.
Qed.

(** X7.  The fingerprint check needs both sides: when the request has no
    (or an empty) X-Fingerprint header, or no hash is stored for the
    device, a verified request is never answered with the device
    verification failure and never flagged, in production too. *)
Theorem fingerprint_check_skipped (w : Auth.World) (req : Request)
    (v : Auth.Verified) (jtiCache : gset string) :
  Auth.verifyRequest w req = Ok v ->
  Js.truthyOpt (header req "x-fingerprint") = false \/
  Js.truthyOpt (Auth.fingerprint_hash (Auth.deviceKey v)) = false ->
  fst (Auth.authenticateToken w req jtiCache)
    <> Auth.Respond 401 "Device verification failed" /\
  forall user mismatch ipChanged,
    fst (Auth.authenticateToken w req jtiCache) = Auth.Next user mismatch ipChanged ->
    mismatch = false.
Proof.
  intros Hv Hmissing.
  assert (Hfp : Auth.fingerprintValidation w req v = Ok false).
  { unfold Auth.fingerprintValidation.
    destruct Hmissing as [-> | ->]; [by rewrite andb_false_r|done]. }
  unfold Auth.authenticateToken. rewrite Hv.
  destruct (decide (Auth.proofJti v ∈ jtiCache)); simpl; [done|].
  unfold Auth.afterReplayCheck. rewrite Hfp. simpl.
  unfold Auth.ipValidation, Auth.respondIf, Auth.AuthenticationFailed.
  split.
  - repeat (case_match; simpl); discriminate.
  - intros user mismatch ipChanged.
    repeat (case_match; simpl); intros; simplify_eq; done.
Qed.

(** X8.  [optionalAuth] runs the full authentication exactly when both headers
    are present and non-empty, and a request whose proof would verify always
    has both, so replay protection applies there as well.  When the DPoP
    header is missing the request continues anonymously with the cache
    untouched, although [authenticateToken] answers the same request, if it
    carries a bearer token, with 401 "Missing DPoP header". *)
Theorem optionalAuth_cases (w : Auth.World) (req : Request)
    (jtiCache : gset string) :
  (forall v, Auth.verifyRequest w req = Ok v ->
     Auth.optionalAuth w req jtiCache
     = (Auth.Authenticated (fst (Auth.authenticateToken w req jtiCache)),
        snd (Auth.authenticateToken w req jtiCache))) /\
  (Js.truthyOpt (header req "dpop") = false ->
     Auth.optionalAuth w req jtiCache = (Auth.Anonymous, jtiCache) /\
     forall token, header req "authorization" = Some ("Bearer " +:+ token) ->
       Auth.authenticateToken w req jtiCache
       = (Auth.Respond 401 "Missing DPoP header", jtiCache)).
Proof.
  split.
  - intros v Hv. unfold Auth.optionalAuth.
    assert (Js.truthyOpt (header req "authorization") = true /\
            Js.truthyOpt (header req "dpop") = true) as [-> ->]; [|done].
    unfold Auth.verifyRequest in Hv.
    apply respondIf_Ok in Hv as [Hauth Hv].
    apply respondIf_Ok in Hv as [Hdpop _].
    apply orb_false_iff in Hauth as [Hauth _].
    by apply negb_false_iff in Hauth, Hdpop.
  - intros Hdpop. split.
    + unfold Auth.optionalAuth. by rewrite Hdpop, andb_false_r.
    + intros token Hauth.
      assert (Hv : Auth.verifyRequest w req
                   = Err (Auth.Respond 401 "Missing DPoP header")).
      { unfold Auth.verifyRequest. rewrite Hauth, Hdpop.
        change (Js.truthyOpt (Some ("Bearer " +:+ token))) with true.
        change (Js.startsWith (Js.orEmpty (Some ("Bearer " +:+ token))) "Bearer ")
          with (String.prefix "" token).
        by destruct token. }
      unfold Auth.authenticateToken. by rewrite Hv.
Qed.

End OrchestratorSound.

Lemma accepted_only_if_bound_witness :
  exists v,
    Auth.verifyRequest (H := Demo.runtime) (Demo.world None None 1700000000000)
                       (Demo.request "hdr.upper.sig" None) = Ok v /\
    Auth.proofJti v = "jti-1".
Proof.
  destruct (accepted_only_if_bound (H := Demo.runtime)
              (Demo.world None None 1700000000000)
              (Demo.request "hdr.upper.sig" None) ∅ Demo.alice false false)
    as (v & Hv & _); [vm_compute; reflexivity|].
  exists v. split; [exact Hv|].
  assert (Hc : Auth.verifyRequest (H := Demo.runtime)
                 (Demo.world None None 1700000000000)
                 (Demo.request "hdr.upper.sig" None)
               = Ok (Demo.verified "jti-1")) by (vm_compute; reflexivity).
  rewrite Hc in Hv. by injection Hv as <-.
Defined.

Lemma cache_grows_without_bound_witness :
  size (snd (Auth.authenticateToken (H := Demo.runtime)
               (Demo.world None None 1700000000000)
               (Demo.request "hdr.upper.sig" None) {["jti-0"]})) = 2%nat.
Proof.
  apply (cache_grows_without_bound (H := Demo.runtime) _ _ (Demo.verified "jti-1")).
  - vm_compute. reflexivity.
  - apply not_elem_of_singleton. discriminate.
Defined.

Lemma fingerprint_check_skipped_witness :
  fst (Auth.authenticateToken (H := Demo.runtime)
         (Demo.world (Some "production") None 1700000000000)
         (Demo.request "hdr.upper.sig" None) ∅)
  <> Auth.Respond 401 "Device verification failed".
Proof.
  refine (proj1 (fingerprint_check_skipped (H := Demo.runtime)
                   (Demo.world (Some "production") None 1700000000000)
                   (Demo.request "hdr.upper.sig" None)
                   (Demo.verified "jti-1") ∅ _ _)).
  - vm_compute. reflexivity.
  - left. vm_compute. reflexivity.
Defined.


(** ** Further properties of the fingerprint hash *)

(** The 32-bit FNV-1a hash of a string, by its usual definition: for each
    character, exclusive-or into the state, then multiply by the FNV prime
    modulo [2^32]. *)
Definition fnvPrime : Z := 16777619.

Definition fnvOffsetBasis : Z := 2166136261.

Definition fnv1aStep (h : Z) (c : ascii) : Z :=
  (Z.lxor h (Js.code c) * fnvPrime) mod 2 ^ 32.

Definition fnv1a32 (s : string) : Z :=
  fold_left fnv1aStep (list_ascii_of_string s) fnvOffsetBasis.

Section FingerprintHash.
Context `{Runtime}.

Lemma toInt32_mod (z : Z) : Js.toInt32 z mod 2 ^ 32 = z mod 2 ^ 32.
Proof.
  unfold Js.toInt32. case_match.
  - apply Z.mod_mod. lia.
  - rewrite <- (Z.mod_add _ 1 (2 ^ 32)) by lia.
    replace (z mod 2 ^ 32 - 2 ^ 32 + 1 * 2 ^ 32) with (z mod 2 ^ 32) by lia.
    apply Z.mod_mod. lia.
Qed.

Lemma lxor_mod (a b : Z) :
  Z.lxor a b mod 2 ^ 32 = Z.lxor (a mod 2 ^ 32) (b mod 2 ^ 32).
Proof.
  apply Z.bits_inj'. intros n Hn.
  destruct (Z.lt_ge_cases n 32) as [Hlow|Hhigh].
  - rewrite Z.mod_pow2_bits_low, !Z.lxor_spec, !Z.mod_pow2_bits_low by lia.
    reflexivity.
  - rewrite Z.mod_pow2_bits_high, Z.lxor_spec, !Z.mod_pow2_bits_high by lia.
    reflexivity.
Qed.

Lemma code_range (c : ascii) : 0 <= Js.code c < 256.
Proof.
  unfold Js.code. pose proof (nat_ascii_bounded c). lia.
Qed.

Lemma bitXor_mod (h : Z) (c : ascii) :
  Js.bitXor h (Js.code c) mod 2 ^ 32 = Z.lxor (h mod 2 ^ 32) (Js.code c).
Proof.
  unfold Js.bitXor. rewrite toInt32_mod, lxor_mod, !toInt32_mod.
  pose proof (code_range c).
  by rewrite (Z.mod_small (Js.code c)) by lia.
Qed.

Lemma shiftLeft_mod (x k : Z) :
  0 <= k < 32 -> Js.shiftLeft x k mod 2 ^ 32 = (x * 2 ^ k) mod 2 ^ 32.
Proof.
  intros Hk. unfold Js.shiftLeft.
  rewrite toInt32_mod, (Z.mod_small k) by lia.
  rewrite Z.shiftl_mul_pow2 by lia.
  rewrite Z.mul_mod, toInt32_mod, <- Z.mul_mod by lia.
  reflexivity.
Qed.

Lemma add_mod_congr (a a' b b' : Z) :
  a mod 2 ^ 32 = a' mod 2 ^ 32 -> b mod 2 ^ 32 = b' mod 2 ^ 32 ->
  (a + b) mod 2 ^ 32 = (a' + b') mod 2 ^ 32.
Proof.
  intros Ha Hb. rewrite Z.add_mod, Ha, Hb, <- Z.add_mod by lia. reflexivity.
Qed.

(** One round of the loop is one round of FNV-1a: the five shifts and the
    additions multiply by [1 + 2 + 16 + 128 + 256 + 2^24], the FNV prime. *)
Lemma hashStep_mod (h : Z) (c : ascii) :
  Fingerprint.hashStep h c mod 2 ^ 32 = fnv1aStep (h mod 2 ^ 32) c.
Proof.
  unfold Fingerprint.hashStep, fnv1aStep, fnvPrime.
  set (x := Js.bitXor h (Js.code c)).
  rewrite <- bitXor_mod. fold x.
  rewrite Z.mul_mod, Z.mod_mod, <- Z.mul_mod by lia.
  replace (x * 16777619)
    with (x + (x * 2 ^ 1 + x * 2 ^ 4 + x * 2 ^ 7 + x * 2 ^ 8 + x * 2 ^ 24)) by lia.
  apply add_mod_congr; [reflexivity|].
  repeat apply add_mod_congr; apply shiftLeft_mod; lia.
Qed.

Lemma hash_fold_mod (l : list ascii) (h : Z) :
  fold_left Fingerprint.hashStep l h mod 2 ^ 32
  = fold_left fnv1aStep l (h mod 2 ^ 32).
Proof.
  revert h. induction l as [|c l IH]; intros h; simpl; [done|].
  by rewrite IH, hashStep_mod.
Qed.

(** X9.  The loop of [generateFingerprintHash], run on JavaScript's signed
    32-bit operators and unbounded additions, computes the 32-bit FNV-1a
    hash of the string: the value printed in hexadecimal is [fnv1a32]. *)
Theorem hashString_is_fnv1a (str : string) :
  Js.toUint32 (Fingerprint.hashString str) = fnv1a32 str.
Proof.
  unfold Js.toUint32, Fingerprint.hashString, fnv1a32, fnvOffsetBasis.
  rewrite hash_fold_mod. reflexivity.
Qed.

End FingerprintHash.

(** ** Further properties of the similarity score *)

Section Similarity.
Context `{Runtime}.

(** Entries of a matrix row lie between 0 and the larger of the row index
    [i] and their column index, the row starting at column [j0]. *)
Definition rowBound (i j0 : Z) (row : list Z) : Prop :=
  forall (k : nat) (x : Z), row !! k = Some x -> 0 <= x <= Z.max i (j0 + Z.of_nat k).

Lemma rowBound_cons (i j0 x : Z) (row : list Z) :
  0 <= x <= Z.max i j0 -> rowBound i (j0 + 1) row -> rowBound i j0 (x :: row).
Proof.
  intros Hx Hrow [|k] y; simpl.
  - intros [= <-]. lia.
  - intros Hy. specialize (Hrow k y Hy). lia.
Qed.

Lemma rowBound_tail (i j0 x : Z) (row : list Z) :
  rowBound i j0 (x :: row) -> 0 <= x <= Z.max i j0 /\ rowBound i (j0 + 1) row.
Proof.
  intros Hrow. split.
  - specialize (Hrow 0%nat x eq_refl). lia.
  - intros k y Hy. specialize (Hrow (S k) y Hy). lia.
Qed.

Lemma rowBound_eq (i i' j j' : Z) (row : list Z) :
  i = i' -> j = j' -> rowBound i j row -> rowBound i' j' row.
Proof. by intros -> ->. Qed.

Lemma levenshteinRow_bound (c2 : ascii) (str1 : string) (prev : list Z)
    (left i j : Z) :
  length prev = S (String.length str1) ->
  rowBound (i - 1) (j - 1) prev ->
  0 <= left <= Z.max i (j - 1) ->
  1 <= i -> 1 <= j ->
  length (Fingerprint.levenshteinRow c2 str1 prev left) = String.length str1 /\
  rowBound i j (Fingerprint.levenshteinRow c2 str1 prev left).
Proof.
  revert prev left j. induction str1 as [|c1 r1 IH]; intros prev left j Hlen Hprev Hleft Hi Hj.
  - simpl. split; [done|]. intros k x Hk. by destruct k.
  - destruct prev as [|diag [|up rest]]; [discriminate..|].
    simpl in Hlen. injection Hlen as Hlen.
    apply rowBound_tail in Hprev as [Hdiag Hprev'].
    apply (rowBound_eq _ (i - 1) _ j) in Hprev'; [|lia..].
    pose proof (rowBound_tail _ _ _ _ Hprev') as [Hup _].
    cbn [Fingerprint.levenshteinRow].
    set (v := if Ascii.eqb c2 c1 then diag
              else Z.min (diag + 1) (Z.min (left + 1) (up + 1))).
    assert (Hv : 0 <= v <= Z.max i j) by (unfold v; case_match; lia).
    destruct (IH (up :: rest) v (j + 1)) as [Hlen' Hrow'];
      [simpl; lia | eapply rowBound_eq; [| |exact Hprev']; lia
      | lia | lia | lia |].
    split; [simpl; by rewrite Hlen'|].
    by apply rowBound_cons.
Qed.

Lemma levenshteinRows_bound (str1 str2 : string) (i : Z) (prev : list Z) :
  1 <= i ->
  length prev = S (String.length str1) ->
  rowBound (i - 1) 0 prev ->
  let final := Fingerprint.levenshteinRows str1 str2 i prev in
  length final = S (String.length str1) /\
  rowBound (i - 1 + Z.of_nat (String.length str2)) 0 final.
Proof.
  revert i prev. induction str2 as [|c2 r2 IH]; intros i prev Hi Hlen Hprev final.
  - split; [done|]. eapply rowBound_eq; [| |exact Hprev]; simpl; lia.
  - destruct (levenshteinRow_bound c2 str1 prev i i 1) as [Hlen' Hrow'];
      [done | eapply rowBound_eq; [| |exact Hprev]; lia | lia | lia | lia |].
    destruct (IH (i + 1) (i :: Fingerprint.levenshteinRow c2 str1 prev i))
      as [Hlen'' Hrow'']; [lia | simpl; by rewrite Hlen' | |].
    + eapply rowBound_eq; [| |apply (rowBound_cons i 0)]; [lia|reflexivity|lia|].
      eapply rowBound_eq; [| |exact Hrow']; lia.
    + split; [done|].
      eapply rowBound_eq; [| |exact Hrow'']; [|reflexivity].
      change (String.length (String c2 r2)) with (S (String.length r2)). lia.
Qed.

Lemma last_lookup_default (l : list Z) (d : Z) :
  l <> [] -> l !! pred (length l) = Some (List.last l d).
Proof.
  induction l as [|x l IH]; [done|]. intros _.
  destruct l as [|y l]; [done|].
  change (List.last (x :: y :: l) d) with (List.last (y :: l) d).
  simpl in *. by apply IH.
Qed.

(** The edit distance is between 0 and the length of the longer string. *)
Theorem levenshtein_bounds (str1 str2 : string) :
  0 <= Fingerprint.calculateLevenshteinDistance str1 str2
    <= Z.max (Fingerprint.strLength str1) (Fingerprint.strLength str2).
Proof.
  unfold Fingerprint.calculateLevenshteinDistance, Fingerprint.strLength.
  set (row0 := map Z.of_nat (seq 0 (S (String.length str1)))).
  destruct (levenshteinRows_bound str1 str2 1 row0) as [Hlen Hrow].
  - lia.
  - unfold row0. by rewrite length_map, length_seq.
  - intros k x Hk. unfold row0 in Hk.
    rewrite list_lookup_fmap in Hk.
    destruct (seq 0 (S (String.length str1)) !! k) as [n|] eqn:Hn; [|done].
    apply lookup_seq in Hn as [-> _]. injection Hk as <-. lia.
  - set (final := Fingerprint.levenshteinRows str1 str2 1 row0) in *.
    assert (Hne : final <> []) by (intros Heq; by rewrite Heq in Hlen).
    pose proof (last_lookup_default final 0 Hne) as Hlast.
    rewrite Hlen in Hlast. simpl in Hlast.
    specialize (Hrow _ _ Hlast). lia.
Qed.







(** Two values that are not arrays or objects. *)
Definition primitive (o : option jval) : Prop :=
  match o with
  | Some (JArr _) | Some (JObj _) => False
  | _ => True
  end.

Lemma strictEq_refl (o : option jval) : primitive o -> strictEq o o = true.
Proof.
  destruct o as [[| b | n | s | |]|]; simpl; try done.
  - intros _. by destruct b.
  - intros _. apply Z.eqb_refl.
  - intros _. apply String.eqb_refl.
Qed.

(** X12.  A fingerprint whose eight fields are strings, numbers, booleans, null
    or missing has similarity 1 with itself. *)
Theorem similarity_self (fp : list (string * jval)) :
  (forall k, k ∈ map fst Fingerprint.weights -> primitive (assoc k fp)) ->
  (Fingerprint.compareFingerprintSimilarity (JObj fp) (JObj fp) == 1)%Q.
Proof.
  intros Hprim. unfold Fingerprint.compareFingerprintSimilarity. simpl.
  unfold Fingerprint.accumulate. simpl.
  assert (Hw : forall k w, k ∈ map fst Fingerprint.weights ->
               Fingerprint.contribution fp fp k w = w).
  { intros k w Hk. unfold Fingerprint.contribution.
    by rewrite (strictEq_refl _ (Hprim k Hk)). }
  rewrite (Hw "ua"), (Hw "lang"), (Hw "tz"), (Hw "scr"), (Hw "hwc"), (Hw "mem"),
    (Hw "platform"), (Hw "webgl") by (apply list_elem_of_In; simpl; tauto).
  reflexivity.
Qed.

(** X13.  When the stored and the current user agent are recognised as two
    different browser families, the user-agent pass of the loop adds nothing
    to [matches], whatever the versions. *)
Theorem different_family_contributes_nothing
    (stored current : list (string * jval)) (s c : string)
    (si ci : Fingerprint.BrowserInfo) (weight : Q) :
  assoc "ua" stored = Some (JStr s) ->
  assoc "ua" current = Some (JStr c) ->
  Fingerprint.extractBrowserInfo s = Some si ->
  Fingerprint.extractBrowserInfo c = Some ci ->
  Fingerprint.browser si <> Fingerprint.browser ci ->
  (Fingerprint.contribution stored current "ua" weight == 0)%Q.
Proof.
  intros Hs Hc Hsi Hci Hfam. unfold Fingerprint.contribution.
  rewrite Hs, Hc. simpl.
  destruct (String.eqb_spec s c) as [->|Hne]; [congruence|].
  unfold Fingerprint.calculateUserAgentSimilarity. simpl.
  rewrite (extractBrowserInfo_truthy _ _ Hsi), (extractBrowserInfo_truthy _ _ Hci).
  simpl. destruct (String.eqb_spec s c); [done|].
  rewrite Hsi, Hci.
  destruct (String.eqb_spec (Fingerprint.browser si) (Fingerprint.browser ci));
    [done|]. apply Qmult_0_r.
Qed.

End Similarity.

Lemma similarity_self_witness :
  (Fingerprint.compareFingerprintSimilarity (H := Demo.runtime)
     Demo.fpStored Demo.fpStored == 1)%Q.
Proof.
  apply (similarity_self (H := Demo.runtime)
           (Demo.fingerprintMembers (Demo.chrome "120") "Win32")).
  intros k Hk. apply list_elem_of_In in Hk. simpl in Hk.
  repeat (destruct Hk as [<-|Hk]; [exact I|]). destruct Hk.
Defined.

Lemma different_family_contributes_nothing_witness :
  let firefox :=
    "Mozilla/5.0 (X11; Linux x86_64; rv:121.0) Gecko/20100101 Firefox/121.0" in
  (Fingerprint.contribution (Demo.fingerprintMembers (Demo.chrome "120") "Win32")
                            (Demo.fingerprintMembers firefox "Win32")
                            "ua" (3 # 10) == 0)%Q.
Proof.
  intros firefox.
  apply (different_family_contributes_nothing
           (Demo.fingerprintMembers (Demo.chrome "120") "Win32")
           (Demo.fingerprintMembers firefox "Win32")
           (Demo.chrome "120") firefox
           {| Fingerprint.browser := "Chrome\"; Fingerprint.majorVersion := 120 |}
           {| Fingerprint.browser := "Firefox\"; Fingerprint.majorVersion := 121 |});
    try reflexivity.
  discriminate.
Defined.

(** ** Further properties of the fingerprint comparison *)

Section FingerprintNormalisation.
Context `{Runtime}.

(** The keys of the object [normalized]. *)
Definition fingerprintKeys : list string :=
  ["ua"; "lang"; "tz"; "scr"; "hwc"; "mem"; "platform"; "webgl"].

(** Two readings of a field that the normalisation does not tell apart:
    the same value, or two falsy ones (missing, null, false, 0 or the empty
    string). *)
Definition alike (a b : option jval) : Prop :=
  a = b \/ (truthy a = false /\ truthy b = false).

Lemma orDefault_alike (a b : option jval) (dflt : jval) :
  alike a b -> Fingerprint.orDefault a dflt = Fingerprint.orDefault b dflt.
Proof.
  intros [->|[Ha Hb]]; [done|]. unfold Fingerprint.orDefault.
  rewrite Ha, Hb. by destruct a, b.
Qed.

Lemma toHex_truthy (n : Z) : Js.truthy (Js.toHex n) = true.
Proof.
  unfold Js.toHex. by destruct (N.to_hex_uint (Z.to_N n)).
Qed.

(** X14.  The hash of a fingerprint object depends on the eight fields only, and
    on each of them up to falsiness: two objects whose eight fields are
    pairwise the same or both falsy have the same hash, whatever other
    members they carry and in whatever order.  A current fingerprint that
    parses to such an object therefore matches the hash stored for the
    other one. *)
Theorem hash_depends_on_normal_form (fp1 fp2 : list (string * jval)) :
  (forall k, k ∈ fingerprintKeys -> alike (assoc k fp1) (assoc k fp2)) ->
  Fingerprint.generateFingerprintHash (JObj fp1)
  = Fingerprint.generateFingerprintHash (JObj fp2) /\
  forall current tol,
    current <> "" ->
    JSON_parse current = Some (JObj fp2) ->
    Security.compareFingerprints (Fingerprint.generateFingerprintHash (JObj fp1))
                                 (JStr current) tol = true.
Proof.
  intros Halike.
  assert (Hnorm : Fingerprint.normalize fp1 = Fingerprint.normalize fp2).
  { unfold Fingerprint.normalize.
    rewrite (orDefault_alike (assoc "ua" fp1) (assoc "ua" fp2)),
      (orDefault_alike (assoc "lang" fp1) (assoc "lang" fp2)),
      (orDefault_alike (assoc "tz" fp1) (assoc "tz" fp2)),
      (orDefault_alike (assoc "scr" fp1) (assoc "scr" fp2)),
      (orDefault_alike (assoc "hwc" fp1) (assoc "hwc" fp2)),
      (orDefault_alike (assoc "mem" fp1) (assoc "mem" fp2)),
      (orDefault_alike (assoc "platform" fp1) (assoc "platform" fp2)),
      (orDefault_alike (assoc "webgl" fp1) (assoc "webgl" fp2))
      by (apply Halike, list_elem_of_In; simpl; tauto).
    reflexivity. }
  assert (Hhash : Fingerprint.generateFingerprintHash (JObj fp1)
                  = Fingerprint.generateFingerprintHash (JObj fp2)).
  { unfold Fingerprint.generateFingerprintHash. by rewrite Hnorm. }
  split; [exact Hhash|].
  intros current tol Hne Hparse.
  unfold Security.compareFingerprints, Fingerprint.dataOf.
  rewrite Hparse, <- Hhash.
  unfold Fingerprint.generateFingerprintHash at 1.
  cbn [Js.truthyOpt]. rewrite toHex_truthy.
  assert (truthy (Some (JStr current)) = true) as ->.
  { simpl. unfold Js.truthy. apply negb_true_iff.
    by destruct (String.eqb_spec current ""). }
  simpl. by apply bool_decide_eq_true_2.
Qed.

(** X15.  Anything that is not an object or an array has no hash, and then the
    comparison fails whatever is stored: a current fingerprint that does not
    parse, or parses to a string, a number, a boolean or null, is a
    mismatch. *)
Theorem unusable_fingerprint_is_mismatch (storedHash : option string)
    (current : string) (tol : Q) :
  match JSON_parse current with
  | Some (JObj _) | Some (JArr _) => False
  | _ => True
  end ->
  Security.compareFingerprints storedHash (JStr current) tol = false.
Proof.
  intros Hbad. unfold Security.compareFingerprints, Fingerprint.dataOf.
  destruct (negb (Js.truthyOpt storedHash) || _) eqn:Hguard; [done|].
  apply orb_false_iff in Hguard as [Hstored _].
  destruct (JSON_parse current) as [[| | | | |]|]; try done;
    simpl; apply bool_decide_eq_false_2; intros ->; discriminate.
Qed.

End FingerprintNormalisation.

Lemma hash_depends_on_normal_form_witness :
  Fingerprint.generateFingerprintHash
    (JObj [("ua", JStr "Mozilla/5.0"); ("hwc", JNum 0); ("lang", JNull);
           ("plugins", JArr [])])
  = Fingerprint.generateFingerprintHash
      (JObj [("mem", JBool false); ("ua", JStr "Mozilla/5.0")]).
Proof.
  refine (proj1 (hash_depends_on_normal_form (H := Demo.runtime) _ _ _)).
  intros k Hk. apply list_elem_of_In in Hk. simpl in Hk.
  repeat (destruct Hk as [<-|Hk];
          [first [left; reflexivity | right; split; reflexivity]|]).
  destruct Hk.
Defined.

Lemma unusable_fingerprint_is_mismatch_witness :
  Security.compareFingerprints (H := Demo.runtime) Demo.storedHash
                               (JStr "not json") (7 # 10) = false.
Proof.
  apply (unusable_fingerprint_is_mismatch (H := Demo.runtime)).
  vm_compute. exact I.
Defined.

(** ** Further properties of the request classifier *)

Section ClassifierMore.
Context `{Runtime}.

Import AntiScraping.

(** The words of the four regular expressions of [botUserAgents]. *)
Definition automationWords : list string := concat botUserAgents.

(** X16.  A request whose user agent contains one of the automation words, in
    any mix of upper and lower case, is a bot for [detectBot] whatever its
    other headers and whatever is recorded about the client; unless it is
    an authenticated API call, the middleware answers it with the
    bot-detected response. *)
Theorem automation_user_agent_is_bot (now now' : Z) (req : Request) (st : State)
    (word : string) :
  word ∈ automationWords ->
  Js.includes (Js.toLowerCase (Js.orEmpty (header req "user-agent"))) word = true ->
  detectBot req st = true /\
  (bypassed req = false -> fst (middleware now now' req st) = BotDetected).
Proof.
  intros Hword Hinc.
  assert (Hbot : forall st', detectBot req st' = true).
  { intros st'. unfold detectBot.
    assert (existsb (fun regex => testAlternation regex
                                    (Js.orEmpty (header req "user-agent")))
                    botUserAgents = true) as ->; [|done].
    unfold automationWords in Hword.
    apply list_elem_of_In, in_concat in Hword as (regex & Hregex & Hw).
    apply existsb_exists. exists regex. split; [done|].
    unfold testAlternation. apply existsb_exists. by exists word. }
  split; [apply Hbot|].
  intros Hby. unfold bypassed in Hby. unfold middleware.
  by rewrite Hby, Hbot.
Qed.

(** X17.  A request for a page other than the root and outside [/api/] that
    carries no Referer header is answered with the bot-detected response,
    however browser-like its other headers are and whatever is recorded
    about the client. *)
Theorem deep_page_without_referer_is_bot (now now' : Z) (req : Request)
    (st : State) :
  Js.truthyOpt (header req "referer") = false ->
  path req <> "/" ->
  Js.startsWith (path req) "/api/" = false ->
  detectBot req st = true /\
  fst (middleware now now' req st) = BotDetected.
Proof.
  intros Href Hroot Hapi.
  assert (Hbot : forall st', detectBot req st' = true).
  { intros st'. unfold detectBot.
    assert (negb (Js.truthyOpt (header req "referer")) &&
            negb (String.eqb (path req) "/") &&
            negb (Js.startsWith (path req) "/api/") = true) as ->.
    { rewrite Href, Hapi. by destruct (String.eqb_spec (path req) "/"). }
    repeat match goal with
           | |- (if ?b then _ else _) = true => destruct b; [reflexivity|]
           end.
    reflexivity. }
  split; [apply Hbot|].
  unfold middleware. by rewrite Hapi, Hbot.
Qed.

(** X18.  The score is recomputed from the window at every analysed request: the
    score found in the map before plays no part, so the 20-point penalties
    do not add up.  After a request that is not bypassed, the client's
    stored score is the computed score of its stored window, plus 20 when
    this very request was penalised. *)
Theorem penalties_do_not_accumulate (now now' : Z) (req : Request) (st : State) :
  bypassed req = false ->
  exists pattern,
    snd (middleware now now' req st) !! getClientId req = Some pattern /\
    suspicionScore pattern
    = calculateSuspicionScore pattern
      + match fst (middleware now now' req st) with
        | TooManyRequests | SuspiciousActivity => 20
        | _ => 0
        end.
Proof.
  intros Hby. unfold bypassed in Hby. unfold middleware. rewrite Hby.
  set (st1 := analyzeRequestPattern now req (getClientId req) st).
  assert (Hst1 : exists p, st1 !! getClientId req = Some p /\
                           suspicionScore p = calculateSuspicionScore p).
  { unfold st1, analyzeRequestPattern. rewrite lookup_insert_eq.
    eexists. split; reflexivity. }
  destruct Hst1 as (p & Hp & Hscore).
  assert (Hpen : exists q,
             handleSuspiciousActivity req st1 !! getClientId req = Some q /\
             suspicionScore q = calculateSuspicionScore q + 20).
  { unfold handleSuspiciousActivity. rewrite Hp, lookup_insert_eq.
    eexists. split; [reflexivity|]. simpl. rewrite Hscore.
    unfold calculateSuspicionScore. reflexivity. }
  destruct (detectBot req st1); simpl; [exists p; split; [done|lia]|].
  destruct (isRequestTooFrequent now' (getClientId req) st1); simpl; [done|].
  destruct (validateBrowserHeaders req); simpl; [exists p; split; [done|lia]|done].
Qed.

(** X19.  What [cleanup] does to one client.  The entry is deleted exactly when
    none of its requests is younger than an hour; otherwise the requests
    younger than an hour are kept, in order, and the score, the paths and
    the user agents are left as they were. *)
Theorem cleanup_entry (now : Z) (st : State) (clientId : string) (pattern : Pattern) :
  st !! clientId = Some pattern ->
  let kept := filter (fun r => now - timestamp r < 3600000) (requests pattern) in
  (kept = [] -> cleanup now st !! clientId = None) /\
  (kept <> [] ->
   cleanup now st !! clientId
   = Some {| requests := kept; paths := paths pattern;
             userAgents := userAgents pattern;
             suspicionScore := suspicionScore pattern |}).
Proof.
  intros Hp kept. unfold cleanup. rewrite lookup_omap, Hp. simpl. fold kept.
  unfold sizeOf. split.
  - intros ->. reflexivity.
  - intros Hne. destruct kept; [done|]. reflexivity.
Qed.

(** A stored pattern is well formed: it has at least one request, its two
    sets have no repetitions, and the path and the user agent of every
    stored request are in the sets. *)
Definition wellFormed (pattern : Pattern) : Prop :=
  requests pattern <> [] /\
  NoDup (paths pattern) /\
  NoDup (userAgents pattern) /\
  Forall (fun r => entryPath r ∈ paths pattern /\ userAgent r ∈ userAgents pattern)
         (requests pattern).

Lemma setAdd_NoDup {A} `{EqDecision A} (x : A) (s : list A) :
  NoDup s -> NoDup (setAdd x s).
Proof.
  intros Hs. unfold setAdd. case_decide; [done|].
  apply NoDup_app. repeat split; [done| |apply NoDup_singleton].
  intros y Hy Hyx. apply list_elem_of_singleton in Hyx. by subst.
Qed.

Lemma analyzeRequestPattern_wellFormed (now : Z) (req : Request) (st : State) :
  (forall c p, st !! c = Some p -> wellFormed p) ->
  forall c p, analyzeRequestPattern now req (getClientId req) st !! c = Some p ->
              wellFormed p.
Proof.
  intros Hst c p. unfold analyzeRequestPattern.
  destruct (decide (getClientId req = c)) as [<-|Hne];
    [|rewrite lookup_insert_ne by done; apply Hst].
  rewrite lookup_insert_eq. intros [= <-].
  unfold wellFormed. cbn [requests paths userAgents suspicionScore].
  set (old := default _ (st !! getClientId req)).
  assert (Hold : NoDup (paths old) /\ NoDup (userAgents old) /\
                 Forall (fun r => entryPath r ∈ paths old /\
                                  userAgent r ∈ userAgents old) (requests old)).
  { unfold old. destruct (st !! getClientId req) as [p0|] eqn:Hp0; simpl.
    - destruct (Hst _ _ Hp0) as (_ & ? & ? & ?). done.
    - repeat split; constructor. }
  destruct Hold as (Hp & Hu & Hr).
  set (new := {| timestamp := now; entryPath := path req;
                 entryMethod := method req;
                 userAgent := header req "user-agent" |}).
  repeat split.
  - rewrite filter_app, filter_cons_True by (simpl; lia).
    intros Heq. by apply app_eq_nil in Heq as [_ ?].
  - by apply setAdd_NoDup.
  - by apply setAdd_NoDup.
  - apply Forall_forall. intros r Hin.
    apply list_elem_of_filter in Hin as [_ Hin].
    apply elem_of_app in Hin as [Hin|Hin].
    + rewrite Forall_forall in Hr. destruct (Hr r Hin).
      rewrite !setAdd_elem. auto.
    + apply list_elem_of_singleton in Hin as ->.
      rewrite !setAdd_elem. unfold new. cbn [entryPath userAgent]. auto.
Qed.

Lemma handleSuspiciousActivity_wellFormed (req : Request) (st : State) :
  (forall c p, st !! c = Some p -> wellFormed p) ->
  forall c p, handleSuspiciousActivity req st !! c = Some p -> wellFormed p.
Proof.
  intros Hst c p. unfold handleSuspiciousActivity.
  destruct (st !! getClientId req) as [p0|] eqn:Hp0; [|apply Hst].
  destruct (decide (getClientId req = c)) as [<-|Hne];
    [|rewrite lookup_insert_ne by done; apply Hst].
  rewrite lookup_insert_eq. intros [= <-]. apply (Hst _ _ Hp0).
Qed.

(** X20.  In every state the singleton can reach, every stored pattern is well
    formed. *)
Theorem stored_patterns_well_formed (st : State) :
  reachable st ->
  forall clientId pattern, st !! clientId = Some pattern -> wellFormed pattern.
Proof.
  induction 1 as [|st e Hreach IH].
  - intros c p Hp. by rewrite lookup_empty in Hp.
  - destruct e as [now now' req|now]; simpl.
    + unfold middleware.
      destruct (Js.startsWith (path req) "/api/" && _); [done|].
      pose proof (analyzeRequestPattern_wellFormed now req st IH) as Hst1.
      destruct (detectBot req _); [done|].
      destruct (isRequestTooFrequent now' _ _);
        [by apply handleSuspiciousActivity_wellFormed|].
      destruct (validateBrowserHeaders req); simpl;
        [done|by apply handleSuspiciousActivity_wellFormed].
    + intros c p. unfold cleanup. rewrite lookup_omap.
      destruct (st !! c) as [p0|] eqn:Hp0; simpl; [|discriminate].
      destruct (IH _ _ Hp0) as (Hne & Hp & Hu & Hr).
      case_match eqn:Hsize; [discriminate|]. intros [= <-].
      repeat split; simpl; try done.
      * intros Heq. rewrite Heq in Hsize. done.
      * apply Forall_forall. intros r Hin.
        apply list_elem_of_filter in Hin as [_ Hin].
        rewrite Forall_forall in Hr. by apply Hr.
Qed.

End ClassifierMore.

Lemma automation_user_agent_is_bot_witness :
  AntiScraping.detectBot (H := Demo.runtime)
    (Demo.pageRequest "gzip" "/") ∅ = false /\
  AntiScraping.detectBot (H := Demo.runtime) Demo.curlApiRequest ∅ = true.
Proof.
  split; [vm_compute; reflexivity|].
  refine (proj1 (automation_user_agent_is_bot (H := Demo.runtime) 0 0
                   Demo.curlApiRequest ∅ "curl" _ _)).
  - refine (bool_decide_unpack _ _). vm_compute. exact I.
  - vm_compute. reflexivity.
Defined.

Lemma deep_page_without_referer_is_bot_witness :
  let req := {| method := "GET"; path := "/pricing"; originalUrl := "/pricing";
                secure := true;
                headers :=
                  list_to_map
                    [("user-agent", Demo.chrome "120");
                     ("accept", "text/html,application/xhtml+xml");
                     ("accept-language", "en-US,en");
                     ("accept-encoding", "gzip, deflate, br")];
                remoteAddress := Some "198.51.100.23";
                ip := Some "198.51.100.23";
                securityContextIp := Some "198.51.100.23" |} in
  fst (AntiScraping.middleware (H := Demo.runtime) 1700000000000 1700000000001
         req ∅) = AntiScraping.BotDetected.
Proof.
  intros req.
  refine (proj2 (deep_page_without_referer_is_bot (H := Demo.runtime)
                   1700000000000 1700000000001 req ∅ _ _ _)).
  - vm_compute. reflexivity.
  - discriminate.
  - vm_compute. reflexivity.
Defined.

Lemma penalties_do_not_accumulate_witness :
  exists pattern,
    snd (AntiScraping.middleware (H := Demo.runtime) 1700000000000 1700000000001
           (Demo.pageRequest "deflate" "/pricing") ∅)
      !! AntiScraping.getClientId (H := Demo.runtime)
           (Demo.pageRequest "deflate" "/pricing")
    = Some pattern.
Proof.
  destruct (penalties_do_not_accumulate (H := Demo.runtime)
              1700000000000 1700000000001
              (Demo.pageRequest "deflate" "/pricing") ∅)
    as (pattern & Hp & _); [vm_compute; reflexivity|].
  by exists pattern.
Defined.

Lemma cleanup_entry_witness :
  let st := AntiScraping.step (H := Demo.runtime) ∅
              (AntiScraping.Handles 1700000000000 1700000000001
                 (Demo.pageRequest "gzip" "/")) in
  AntiScraping.cleanup 1703600000000 st !! "Mozilla/5.0 (Win" = None.
Proof.
  intros st.
  assert (Hp : st !! "Mozilla/5.0 (Win"
               = Some {| AntiScraping.requests :=
                           [{| AntiScraping.timestamp := 1700000000000;
                               AntiScraping.entryPath := "/";
                               AntiScraping.entryMethod := "GET";
                               AntiScraping.userAgent := Some (Demo.chrome "120") |}];
                         AntiScraping.paths := ["/"];
                         AntiScraping.userAgents := [Some (Demo.chrome "120")];
                         AntiScraping.suspicionScore := 0 |})
    by (vm_compute; reflexivity).
  apply (proj1 (cleanup_entry 1703600000000 st _ _ Hp)).
  vm_compute. reflexivity.
Defined.

Lemma stored_patterns_well_formed_witness :
  let st := AntiScraping.step (H := Demo.runtime) ∅
              (AntiScraping.Handles 1700000000000 1700000000001
                 (Demo.pageRequest "gzip" "/")) in
  exists pattern, st !! "Mozilla/5.0 (Win" = Some pattern /\ wellFormed pattern.
Proof.
  intros st. eexists. split; [vm_compute; reflexivity|].
  apply (stored_patterns_well_formed (H := Demo.runtime) st
           (AntiScraping.reachable_step _ _ AntiScraping.reachable_init)
           "Mozilla/5.0 (Win").
  vm_compute. reflexivity.
Defined.

(** ** The sequential-path signal *)

Section SequentialPaths.
Context `{Runtime}.

Import AntiScraping.

(** A non-empty string of digits, possibly after a minus sign. *)
Definition numeral (s : string) : bool :=
  (Js.truthy s && Js.allDigits s) ||
  match s with
  | String "-" r => Js.truthy r && Js.allDigits r
  | _ => false
  end.

(** A path that consists of a slash and a numeral, such as [/17]. *)
Definition bareNumber (p : string) : bool :=
  match p with
  | String "/" r => numeral r
  | _ => false
  end.

(** A path that ends in no number, or in one that is a safe integer. *)
Definition safeTrailingNumber (p : string) : bool :=
  match matchTrailingNumber p with
  | Some ds => Js.parseDigits ds <=? Js.MAX_SAFE_INTEGER
  | None => true
  end.

Lemma string_of_uint_digits (d : Decimal.uint) :
  Js.allDigits (DecimalString.NilEmpty.string_of_uint d) = true.
Proof. induction d; simpl; try done. Qed.

Lemma string_of_uint_truthy (d : Decimal.uint) :
  d <> Decimal.Nil -> Js.truthy (DecimalString.NilEmpty.string_of_uint d) = true.
Proof. by destruct d. Qed.

Lemma numberToString_numeral (n : Z) : numeral (Js.numberToString n) = true.
Proof.
  unfold Js.numberToString, numeral. destruct n as [|p|p]; simpl.
  - reflexivity.
  - rewrite string_of_uint_digits, string_of_uint_truthy
      by apply DecimalPos.Unsigned.to_uint_nonnil. reflexivity.
  - rewrite string_of_uint_digits, string_of_uint_truthy
      by apply DecimalPos.Unsigned.to_uint_nonnil. reflexivity.
Qed.

Lemma numberToString_digits (n : Z) :
  0 <= n ->
  Js.truthy (Js.numberToString n) = true /\ Js.allDigits (Js.numberToString n) = true.
Proof.
  intros Hn. unfold Js.numberToString. destruct n as [|p|p]; [done| |lia].
  cbn [Z.to_int DecimalString.NilEmpty.string_of_int].
  split; [apply string_of_uint_truthy, DecimalPos.Unsigned.to_uint_nonnil|].
  apply string_of_uint_digits.
Qed.

Lemma digitsValue_acc (d : Decimal.uint) (acc : positive) :
  Js.digitsValue (Z.pos acc) (DecimalString.NilEmpty.string_of_uint d)
  = Z.pos (Pos.of_uint_acc d acc).
Proof.
  revert acc. induction d as [|d IH|d IH|d IH|d IH|d IH|d IH|d IH|d IH|d IH|d IH];
    intros acc; [reflexivity|..];
    cbn [DecimalString.NilEmpty.string_of_uint Js.digitsValue Pos.of_uint_acc];
    rewrite <- IH; f_equal; vm_compute Js.code; lia.
Qed.

Lemma digitsValue_of_uint (d : Decimal.uint) :
  Js.digitsValue 0 (DecimalString.NilEmpty.string_of_uint d) = Z.of_N (Pos.of_uint d).
Proof.
  induction d as [|d IH|d IH|d IH|d IH|d IH|d IH|d IH|d IH|d IH|d IH];
    [reflexivity|exact IH|..];
    cbn [DecimalString.NilEmpty.string_of_uint Js.digitsValue Pos.of_uint Z.of_N];
    rewrite <- digitsValue_acc; f_equal.
Qed.

(** The digits of a non-negative integer write that integer. *)
Lemma parseDigits_numberToString (n : Z) :
  0 <= n -> Js.parseDigits (Js.numberToString n) = n.
Proof.
  intros Hn. unfold Js.parseDigits, Js.numberToString.
  destruct n as [|p|p]; [reflexivity| |lia].
  cbn [Z.to_int DecimalString.NilEmpty.string_of_int].
  by rewrite digitsValue_of_uint, DecimalPos.Unsigned.of_to.
Qed.

(** The neighbours of a safe integer are its decimal neighbours. *)
Lemma neighbourPaths_safe (ds : string) :
  Js.parseDigits ds <= Js.MAX_SAFE_INTEGER ->
  neighbourPaths ds
  = ("/" +:+ Js.numberToString (Js.parseDigits ds + 1),
     "/" +:+ Js.numberToString (Js.parseDigits ds - 1)).
Proof.
  intros Hsafe. unfold neighbourPaths.
  apply Z.leb_le in Hsafe. by rewrite Hsafe.
Qed.

(** X21.  The neighbours the signal looks for are the bare paths [/n+1] and
    [/n-1], whatever comes before the trailing number of the path it
    started from: when none of the client's paths is a bare number, and
    the numbers that end its paths are safe integers (at most 2^53 - 1,
    where the engine's numbers are exact), the signal does not fire,
    however many consecutive numbers end the paths. *)
Theorem no_bare_number_no_sequence (pathArray : list string) :
  Forall (fun p => bareNumber p = false) pathArray ->
  Forall (fun p => safeTrailingNumber p = true) pathArray ->
  hasSequentialPaths pathArray = false.
Proof.
  intros Hbare Hsafe.
  assert (Hout : forall n, "/" +:+ Js.numberToString n ∉ pathArray).
  { intros n Hin. rewrite Forall_forall in Hbare. specialize (Hbare _ Hin).
    change (numeral (Js.numberToString n) = false) in Hbare.
    by rewrite numberToString_numeral in Hbare. }
  unfold hasSequentialPaths.
  apply not_true_iff_false. intros Hex.
  apply existsb_exists in Hex as (p & Hin & Hp).
  apply list_elem_of_In in Hin.
  rewrite Forall_forall in Hsafe. specialize (Hsafe _ Hin).
  unfold hasNeighbour in Hp. unfold safeTrailingNumber in Hsafe.
  destruct (matchTrailingNumber p) as [ds|]; [|done].
  apply Z.leb_le in Hsafe. rewrite (neighbourPaths_safe ds Hsafe) in Hp.
  apply orb_true_iff in Hp as [Hp|Hp]; apply bool_decide_eq_true in Hp;
    by apply Hout in Hp.
Qed.

(** X22.  When the client's paths contain the bare paths [/n] and [/n+1]
    for a non-negative safe integer [n] (at most 2^53 - 1), the
    sequential-path signal fires. *)
Theorem bare_neighbours_are_sequential (pathArray : list string) (n : Z) :
  0 <= n <= Js.MAX_SAFE_INTEGER ->
  "/" +:+ Js.numberToString n ∈ pathArray ->
  "/" +:+ Js.numberToString (n + 1) ∈ pathArray ->
  hasSequentialPaths pathArray = true.
Proof.
  intros [Hn Hsafe] Hin Hnext.
  pose proof (parseDigits_numberToString n Hn) as Hparse.
  unfold hasSequentialPaths.
  apply existsb_exists. exists ("/" +:+ Js.numberToString n).
  split; [by apply list_elem_of_In|].
  unfold hasNeighbour.
  assert (matchTrailingNumber ("/" +:+ Js.numberToString n)
          = Some (Js.numberToString n)) as ->.
  { destruct (numberToString_digits n Hn) as [Htruthy Hdigits].
    change (matchTrailingNumber ("/" +:+ Js.numberToString n))
      with (if Ascii.eqb "/" "/" && Js.truthy (Js.numberToString n)
               && Js.allDigits (Js.numberToString n)
            then Some (Js.numberToString n)
            else matchTrailingNumber (Js.numberToString n)).
    by rewrite Htruthy, Hdigits. }
  rewrite neighbourPaths_safe by (by rewrite Hparse).
  rewrite Hparse. apply orb_true_iff. left. by apply bool_decide_eq_true.
Qed.

End SequentialPaths.

Lemma no_bare_number_no_sequence_witness :
  AntiScraping.hasSequentialPaths (H := Demo.runtime) (map pathOf Demo.crawl)
  = false.
Proof.
  apply (no_bare_number_no_sequence (H := Demo.runtime)).
  - refine (bool_decide_unpack _ _). vm_compute. exact I.
  - refine (bool_decide_unpack _ _). vm_compute. exact I.
Defined.

Lemma bare_neighbours_are_sequential_witness :
  AntiScraping.hasSequentialPaths (H := Demo.runtime) ["/about"; "/41"; "/42"]
  = true.
Proof.
  apply (bare_neighbours_are_sequential (H := Demo.runtime) _ 41).
  - vm_compute. split; discriminate.
  - refine (bool_decide_unpack _ _). vm_compute. exact I.
  - refine (bool_decide_unpack _ _). vm_compute. exact I.
Defined.

(** Above the safe integers the signal follows the doubles.  A path that
    ends in 1e21 finds [/1e+21], which is no bare number, as its
    neighbour; the bare paths of 1e21 and of its successor, both read as
    1e21, do not find each other. *)
Example rounded_neighbour_found :
  bareNumber "/a/1000000000000000000000" = false /\
  bareNumber "/1e+21" = false /\
  AntiScraping.hasSequentialPaths (H := Demo.runtime)
    ["/a/1000000000000000000000"; "/1e+21"] = true.
Proof. repeat split; vm_compute; reflexivity. Qed.

Example large_neighbours_missed :
  AntiScraping.hasSequentialPaths (H := Demo.runtime)
    ["/1000000000000000000000"; "/1000000000000000000001"] = false.
Proof. vm_compute. reflexivity. Qed.

(** ** Key validation *)

Section KeyValidation.
Context `{Runtime}.

(** X23.  A key that [validateJWK] accepts is an object with the members [kty]
    equal to EC, [crv] equal to P-256, and [x] and [y]; its thumbprint is
    always produced, and is the hash of the JSON text with exactly these
    four members in the order crv, kty, x, y. *)
Theorem validated_key_thumbprint (jwk : jval) :
  Crypto.validateJWK jwk = true ->
  exists props x y,
    jwk = JObj props /\
    assoc "kty" props = Some (JStr "EC") /\
    assoc "crv" props = Some (JStr "P-256") /\
    assoc "x" props = Some x /\ Crypto.hasLength43 x = true /\
    assoc "y" props = Some y /\ Crypto.hasLength43 y = true /\
    Crypto.generateKeyThumbprint jwk
    = Some (sha256_base64url
              ("{" +:+ Js.join "," [Json.member "crv" (Json.quote "P-256");
                                    Json.member "kty" (Json.quote "EC");
                                    Json.member "x" (stringify None x);
                                    Json.member "y" (stringify None y)]
                   +:+ "}")).
Proof.
  destruct jwk as [| | | | |props]; try discriminate.
  unfold Crypto.validateJWK.
  destruct (negb (forallb _ _)) eqn:Hreq; [discriminate|].
  destruct (negb (strictEq (assoc "kty" props) _) || _) eqn:Hcurve; [discriminate|].
  destruct (negb (from_option _ _ (assoc "x" props)) || _) eqn:Hlen; [discriminate|].
  intros _.
  apply orb_false_iff in Hcurve as [Hkty Hcrv].
  apply negb_false_iff in Hkty, Hcrv.
  apply orb_false_iff in Hlen as [Hx Hy].
  apply negb_false_iff in Hx, Hy.
  destruct (assoc "x" props) as [x|] eqn:Ex; [|discriminate].
  destruct (assoc "y" props) as [y|] eqn:Ey; [|discriminate].
  assert (Hk : assoc "kty" props = Some (JStr "EC")).
  { destruct (assoc "kty" props) as [[| | |s| |]|]; try discriminate.
    simpl in Hkty. by apply String.eqb_eq in Hkty as ->. }
  assert (Hc : assoc "crv" props = Some (JStr "P-256")).
  { destruct (assoc "crv" props) as [[| | |s| |]|]; try discriminate.
    simpl in Hcrv. by apply String.eqb_eq in Hcrv as ->. }
  exists props, x, y. repeat split; try done.
  unfold Crypto.generateKeyThumbprint. simpl. rewrite Hk, Hc, Ex, Ey.
  reflexivity.
Qed.

End KeyValidation.

Lemma validated_key_thumbprint_witness :
  Crypto.validateJWK Demo.jwk = true /\
  is_Some (Crypto.generateKeyThumbprint (H := Demo.runtime) Demo.jwk).
Proof.
  split; [reflexivity|].
  destruct (validated_key_thumbprint (H := Demo.runtime) Demo.jwk eq_refl)
    as (props & x & y & _ & _ & _ & _ & _ & _ & _ & Hthumb).
  rewrite Hthumb. eauto.
Defined.

(** ** The edit distance *)

(** X10.  The edit distance between a string and one that is not longer is
    between 0 and the length of the longer string, so that the ratio
    [(longer.length - editDistance) / longer.length] is never negative. *)
Theorem levenshtein_within_longer (longer shorter : string) :
  (String.length shorter <= String.length longer)%nat ->
  0 <= Fingerprint.calculateLevenshteinDistance longer shorter
    <= Fingerprint.strLength longer.
Proof.
  intros Hlen. pose proof (levenshtein_bounds longer shorter) as Hb.
  unfold Fingerprint.strLength in *. lia.
Qed.

Lemma levenshtein_within_longer_witness :
  0 <= Fingerprint.calculateLevenshteinDistance "sitting" "kitten" <= 7.
Proof.
  apply (levenshtein_within_longer "sitting" "kitten"). simpl. lia.
Defined.
